(** * deno_scripts: the [Scripts] entry point of [mod.ts]

    A shallow embedding of the configuration constructor [Scripts] and of
    [defaultCommonArgs], together with the properties of the resolution,
    environment, command composition, launch and watch steps.

    Conventions of the embedding:
    - an optional property [x?: T] is an [option T], [None] being [undefined];
    - configuration objects used as string-keyed maps are [gmap]s, and the
      object spread [{...a, ...b}] is the union [b ∪ a] (left-biased in stdpp,
      so the later operand of the spread wins);
    - the calls into the runtime ([Deno.run], [Deno.exit], [exists], the
      watcher iterator) are recorded as a trace of events, the answers of the
      outside world being read from a [World] record;
    - the object [globalConfig] is mutable: the value of the object after the
      call is part of the result of [Scripts];
    - [Scripts] is embedded for calls that pass [globalConfig]; the default
      of that parameter is the constant [defaultEmptyObject] of
      [./lib/utils.ts], which is not among the sources. *)

From Stdlib Require Import ZArith Ascii.
From stdpp Require Import base option list strings gmap pretty.

Open Scope string_scope.
Open Scope list_scope.

(** ** JavaScript values of the configuration *)

(** Truthiness of a string: every string but the empty one. *)
Definition truthy_string (s : string) : bool :=
  match s with EmptyString => false | String _ _ => true end.

(** [a ?? b] on optional values. *)
Definition nullish {A} (a b : option A) : option A :=
  match a with Some v => Some v | None => b end.

Infix "??" := nullish (at level 45, left associativity).

(** [boolean | string], the type of [envFile], [allowNet], ... *)
Inductive BoolOrString :=
| JBool (b : bool)
| JString (s : string).

Definition truthy_bos (v : BoolOrString) : bool :=
  match v with JBool b => b | JString s => truthy_string s end.

(** [typeof envFile === "string" ? envFile : ".env"]. *)
Definition envFile_path (v : BoolOrString) : string :=
  match v with JString p => p | JBool _ => ".env" end.

(** Truthiness of an optional [envFile]. *)
Definition envFile_in_force (v : option BoolOrString) : bool :=
  from_option truthy_bos false v.

(** [o?.[k]] on an optional object used as a map. *)
Definition lookup_in {A} (o : option (gmap string A)) (k : string) : option A :=
  o ≫= (λ m, m !! k).

(** [string | string[]], the type of [args], [denoArgs] and [run]. *)
Inductive StringOrList :=
| OneString (s : string)
| StringList (l : list string).

Definition truthy_sol (v : StringOrList) : bool :=
  match v with OneString s => truthy_string s | StringList _ => true end.

(** [string | number | boolean], the values of an [env] record. *)
Inductive Scalar :=
| SString (s : string)
| SNumber (n : Z)
| SBoolean (b : bool).

(** An own property of an object literal whose declared type is [x?: A]:
    absent, or present and holding [undefined], or present with a value. *)
Inductive Own (A : Type) :=
| Absent
| Held (v : option A).
Arguments Absent {A}.
Arguments Held {A} v.

(** Reading [o.x]. *)
Definition read {A} (p : Own A) : option A :=
  match p with Absent => None | Held v => v end.

(** One key of the spread [{...a, ...b}]. *)
Definition spread_key {A} (a b : Own A) : Own A :=
  match b with Absent => a | Held v => Held v end.

Record Permissions := {
  allowAll : option bool;
  allowEnv : option bool;
  allowHRTime : option bool;
  allowNet : option BoolOrString;
  allowPlugin : option bool;
  allowRead : option BoolOrString;
  allowRun : option bool;
  allowWrite : option BoolOrString;
}.

Record WatchOptions := {
  paths : Own (list string);
  match_ : Own (list string);
  skip : Own (list string);
  extensions : Own (list string);
  interval : Own Z;
  recursive : Own bool;
}.

(** [defaultEmptyObject] seen as a [WatchOptions]. *)
Definition noWatchOptions : WatchOptions :=
  {| paths := Absent; match_ := Absent; skip := Absent;
     extensions := Absent; interval := Absent; recursive := Absent |}.

(** [{...a, ...b}] on two [WatchOptions]. *)
Definition spread_watch (a b : WatchOptions) : WatchOptions :=
  {| paths := spread_key (paths a) (paths b);
     match_ := spread_key (match_ a) (match_ b);
     skip := spread_key (skip a) (skip b);
     extensions := spread_key (extensions a) (extensions b);
     interval := spread_key (interval a) (interval b);
     recursive := spread_key (recursive a) (recursive b) |}.

(** [boolean | WatchOptions]. *)
Inductive Watch :=
| WatchBool (b : bool)
| WatchObject (o : WatchOptions).

Definition truthy_watch (v : Watch) : bool :=
  match v with WatchBool b => b | WatchObject _ => true end.

(** [typeof v === "object" ? v : defaultEmptyObject]. *)
Definition watch_object (v : option Watch) : WatchOptions :=
  match v with Some (WatchObject o) => o | _ => noWatchOptions end.

(** The interfaces of [mod.ts]; [extends] is a coercion to the parent. *)
Record CommonArgs := {
  envFile : option BoolOrString;
  env : option (gmap string Scalar);
  args : option StringOrList;
  watch : option Watch;
}.

Record CommonDenoConfig := {
  common :> CommonArgs;
  permissions : option Permissions;
  tsconfig : option string;
  denoArgs : option StringOrList;
}.

Record GlobalConfig := {
  deno_config :> CommonDenoConfig;
  debug : option bool;
  importMap : option string;
  unstable : option bool;
}.

(** A value of [ScriptFile | ScriptRun], as the code inspects it at run
    time: the two variants are told apart by which of [file] and [run] is
    truthy, so one record carries both properties. *)
Record Script := {
  file : option string;
  run : option StringOrList;
  script_config :> CommonDenoConfig;
}.

Definition noCommonArgs : CommonArgs :=
  {| envFile := None; env := None; args := None; watch := None |}.

Definition noDenoConfig : CommonDenoConfig :=
  {| common := noCommonArgs; permissions := None; tsconfig := None;
     denoArgs := None |}.

(** [{}] as a [GlobalConfig]. *)
Definition emptyGlobalConfig : GlobalConfig :=
  {| deno_config := noDenoConfig; debug := None; importMap := None;
     unstable := None |}.

(** The assignment [global.envFile = v]. *)
Definition set_common_envFile (c : CommonArgs) (v : BoolOrString) : CommonArgs :=
  {| envFile := Some v; env := env c; args := args c; watch := watch c |}.

Definition set_deno_envFile (c : CommonDenoConfig) (v : BoolOrString)
  : CommonDenoConfig :=
  {| common := set_common_envFile c v; permissions := permissions c;
     tsconfig := tsconfig c; denoArgs := denoArgs c |}.

Definition set_envFile (g : GlobalConfig) (v : BoolOrString) : GlobalConfig :=
  {| deno_config := set_deno_envFile g v; debug := debug g;
     importMap := importMap g; unstable := unstable g |}.

(** ** Property lookup [config[scriptArg]]

    [config] is an ordinary object: a key that is not an own property is
    looked up on [Object.prototype].  What is found there is a function: a
    value that is not [null] and has none of the properties the code reads
    from a script.  The runtime removes the accessor [__proto__] from
    [Object.prototype] at start-up, so that name is not among the inherited
    keys and is looked up like any other undeclared name. *)
Definition Object_prototype_keys : list string :=
  [ "constructor"; "hasOwnProperty"; "isPrototypeOf"; "propertyIsEnumerable";
    "toLocaleString"; "toString"; "valueOf";
    "__defineGetter__"; "__defineSetter__"; "__lookupGetter__";
    "__lookupSetter__" ].

Definition inherited_value : Script :=
  {| file := None; run := None; script_config := noDenoConfig |}.

Definition get_script (config : gmap string Script) (key : string)
  : option Script :=
  match config !! key with
  | Some s => Some s
  | None =>
      if bool_decide (key ∈ Object_prototype_keys) then Some inherited_value
      else None
  end.

(** ** Strings *)

(** [msg.includes(s)]. *)
Fixpoint includes (msg s : string) : bool :=
  if String.prefix s msg then true
  else match msg with
       | EmptyString => false
       | String _ rest => includes rest s
       end.

(** The double quote character of the template literals. *)
Definition dquote : string := String "034"%char EmptyString.

(** [l.join(" ")]. *)
Definition join_space (l : list string) : string := String.concat " " l.

(** ** The helper modules under [./lib]

    [Scripts] calls these functions; it is embedded over any implementation
    of them. *)
Record Lib := {
  argifyPermissions : option Permissions → option Permissions → list string;
  argifyTsconfig : option string → option string → list string;
  argifyArgs : option StringOrList → option StringOrList → list string;
  argifyImportMap : option string → list string;
  argifyUnstable : option bool → list string;
  toArgsStringList : StringOrList → list string;
  loadEnvFromObject : gmap string Scalar → gmap string string;
}.

(** ** The outside world *)

(** Options object of [Deno.run]; [inherit] stands for the three properties
    [stdout], [stderr] and [stdin] being set to ["inherit"]. *)
Record RunOptions := {
  cmd : list string;
  inherit : bool;
  run_env : option (gmap string string);
}.

(** What [process.status()] resolves to.  The code is optional: a child
    stopped by a signal may be reported with a [signal] and no [code]. *)
Record ProcessStatus := {
  success : bool;
  code : option Z;
  signal : option Z;
}.

(** Second argument of [new Watcher]. *)
Record WatcherConfig := {
  cfg_interval : option Z;
  cfg_recursive : option bool;
  cfg_exts : option (list string);
  cfg_match : option (list string);
  cfg_skip : option (list string);
}.

(** One element of a batch yielded by the watcher. *)
Record Change := {
  path : string;
  event : string;
}.

Record World := {
  (** [Deno.args] *)
  Deno_args : list string;
  (** [existsSync(p)] and [await exists(p)] *)
  fs_exists : string → bool;
  (** [await loadEnvFromFile(p)]; [None] when the promise rejects *)
  loadEnvFromFile : string → option (gmap string string);
  (** the status of the child started by [Deno.run(opts)] *)
  child_status : RunOptions → ProcessStatus;
  (** the batches the watcher yields before its iterator ends *)
  watcher_batches : list string → WatcherConfig → list (list Change);
}.

(** Calls observable from outside, in program order. *)
Inductive Event :=
| Log (msg : string)
| Debug (msg : string)
| DebugCommand (line : string) (e : option (gmap string string))
| NewWatcher (ps : list string) (cfg : WatcherConfig)
| DenoRun (opts : RunOptions).

(** How a call of [Scripts] stops before reaching the end of its body. *)
Inductive Outcome :=
| Exit (c : option Z)
| Fatal (msg : string)
| Rejected.

(** A computation: the events emitted so far and either a value or the
    reason why the program stopped. *)
Definition Prog (A : Type) : Type := list Event * (Outcome + A).

Global Instance Prog_ret : MRet Prog := λ A a, ([], inr a).

Global Instance Prog_bind : MBind Prog := λ A B f m,
  match m.2 with
  | inl o => (m.1, inl o)
  | inr a => (m.1 ++ (f a).1, (f a).2)
  end.

Definition emit (e : Event) : Prog unit := ([e], inr tt).
Definition stop {A} (o : Outcome) : Prog A := ([], inl o).

(** [log(msg)] and [debug(msg)] of [./log.ts]. *)
Definition log (msg : string) : Prog unit := emit (Log msg).
Definition debug_msg (msg : string) : Prog unit := emit (Debug msg).

(** Modelled from the spec: [fail] of [./log.ts] is not part of the sources.
    Every fatal error prints one human-readable message to the error stream
    and terminates the orchestrator immediately with a distinguished non-zero
    code; nothing after the call runs. *)
Definition fail {A} (msg : string) : Prog A := stop (Fatal msg).

(** [Deno.exit(code)]. *)
Definition Deno_exit {A} (c : option Z) : Prog A := stop (Exit c).

(** The exit code of the orchestrator process for each way of stopping.
    [Deno.exit] called without a code exits with 0.  The code of a fatal
    error is only known to be non-zero, 1 stands for it; the runtime ends a
    process whose promise rejected with 1. *)
Definition exit_code (o : Outcome) : Z :=
  match o with
  | Exit c => default 0%Z c
  | Fatal _ => 1%Z
  | Rejected => 1%Z
  end.

(** [for (const x of l) body(x)]. *)
Fixpoint for_of {A} (l : list A) (body : A → Prog unit) : Prog unit :=
  match l with
  | [] => mret tt
  | x :: rest => body x;; for_of rest body
  end.

(** [if (b) p]. *)
Definition when (b : bool) (p : Prog unit) : Prog unit :=
  if b then p else mret tt.

Section Scripts.
Context (lib : Lib) (w : World).

(** [defaultCommonArgs(_local, global)]: both arguments are objects passed
    by reference; the result is what the two objects hold after the call. *)
Definition defaultCommonArgs (_local : Script) (global : GlobalConfig)
  : Script * GlobalConfig :=
  match envFile global with
  | None =>
      if fs_exists w ".env" then (_local, set_envFile global (JBool true))
      else (_local, global)
  | Some _ => (_local, global)
  end.

(** The constant [envFile], read after [defaultCommonArgs] ran. *)
Definition Scripts_envFile (script : Script) (globalConfig : GlobalConfig)
  : option BoolOrString :=
  envFile script ?? envFile globalConfig.

(** The variable [env] after [if (envFile) { ... }]. *)
Definition Scripts_env_file (script : Script) (globalConfig : GlobalConfig)
  : Prog (option (gmap string string)) :=
  match Scripts_envFile script globalConfig with
  | Some v =>
      if truthy_bos v then
        match loadEnvFromFile w (envFile_path v) with
        | Some loaded => mret (Some loaded)
        | None => stop Rejected
        end
      else mret None
  | None => mret None
  end.

(** One of the two statements
    [if (o) env = {...(env || defaultEmptyObject), ...loadEnvFromObject(o)}]. *)
Definition env_overlay (o : option (gmap string Scalar))
    (e : option (gmap string string)) : option (gmap string string) :=
  match o with
  | Some o => Some (loadEnvFromObject lib o ∪ default ∅ e)
  | None => e
  end.

(** The variable [env] once the three [if]s have run. *)
Definition Scripts_env (script : Script) (globalConfig : GlobalConfig)
  : Prog (option (gmap string string)) :=
  env0 ← Scripts_env_file script globalConfig;
  mret (env_overlay (env script) (env_overlay (env globalConfig) env0)).

(** The constant [watchModeEnabled]:
    [Boolean(script.watch ?? globalConfig.watch)]. *)
Definition watchModeEnabled (script : Script) (globalConfig : GlobalConfig)
  : bool :=
  match watch script ?? watch globalConfig with
  | Some v => truthy_watch v
  | None => false
  end.

(** The constant [watchOptions]: the spread of the global-level and of the
    script-level value, each taken only when it is an object. *)
Definition watchOptions (script : Script) (globalConfig : GlobalConfig)
  : WatchOptions :=
  spread_watch (watch_object (watch globalConfig))
               (watch_object (watch script)).

(** The array [cmd] of the branch [if (script.file)]. *)
Definition file_cmd (script : Script) (globalConfig : GlobalConfig)
    (f : string) (restArg : list string) : list string :=
  ["deno"; "run"]
    ++ argifyPermissions lib (permissions script) (permissions globalConfig)
    ++ argifyTsconfig lib (tsconfig script) (tsconfig globalConfig)
    ++ argifyArgs lib (denoArgs script) (denoArgs globalConfig)
    ++ argifyImportMap lib (importMap globalConfig)
    ++ argifyUnstable lib (unstable globalConfig)
    ++ [f]
    ++ argifyArgs lib (args script) (args globalConfig)
    ++ restArg.

(** The array [cmd] of the branch [else if (script.run)]. *)
Definition run_cmd (script : Script) (globalConfig : GlobalConfig)
    (r : StringOrList) (restArg : list string) : list string :=
  toArgsStringList lib r
    ++ argifyArgs lib (args script) (args globalConfig)
    ++ restArg.

(** [if (globalConfig.debug) debug({cmd: cmd.join(" "), env})], then
    [Deno.run] and [Deno.exit] with the code of the status. *)
Definition launch (globalConfig : GlobalConfig) (opts : RunOptions)
  : Prog unit :=
  when (bool_decide (debug globalConfig = Some true))
       (emit (DebugCommand (join_space (cmd opts)) (run_env opts)));;
  emit (DenoRun opts);;
  Deno_exit (code (child_status w opts)).

(** The body of [for await (const changes of watcher)]. *)
Definition on_changes (changes : list Change) : Prog unit :=
  log ("Detected " +:+ pretty (length changes) +:+ " change"
         +:+ (if bool_decide (1 < length changes) then "s" else EmptyString)
         +:+ ". Rerunning...");;
  for_of changes (λ change,
    debug_msg ("File " +:+ dquote +:+ path change +:+ dquote +:+ " was "
                 +:+ event change)).

(** The second argument of [new Watcher(...)]. *)
Definition watcher_config (o : WatchOptions) : WatcherConfig :=
  {| cfg_interval := read (interval o);
     cfg_recursive := read (recursive o);
     cfg_exts := read (extensions o);
     cfg_match := read (match_ o);
     cfg_skip := read (skip o) |}.

(** The statements of [Scripts] from the declaration of [envFile] on. *)
Definition Scripts_run (script : Script) (globalConfig : GlobalConfig)
    (restArg : list string) : Prog unit :=
  env2 ← Scripts_env script globalConfig;
  when (watchModeEnabled script globalConfig) (log "Watch mode enabled.");;
  match file script, run script with
  | Some (String _ _ as f), _ =>
      (if fs_exists w f then mret tt
       else fail ("File " +:+ f +:+ " not found!"));;
      if watchModeEnabled script globalConfig then
        let o := watchOptions script globalConfig in
        let ps := f :: default [] (read (paths o)) in
        emit (NewWatcher ps (watcher_config o));;
        for_of (watcher_batches w ps (watcher_config o)) on_changes
      else
        launch globalConfig
          {| cmd := file_cmd script globalConfig f restArg;
             inherit := true; run_env := env2 |}
  | _, Some r =>
      if truthy_sol r then
        launch globalConfig
          {| cmd := run_cmd script globalConfig r restArg;
             inherit := false; run_env := env2 |}
      else fail "Script not found!"
  | _, None => fail "Script not found!"
  end.

(** The object [config] once the object it holds under [key], if any, has
    become [script]. *)
Definition write_back (config : gmap string Script) (key : string)
    (script : Script) : gmap string Script :=
  match config !! key with
  | Some _ => <[key := script]> config
  | None => config
  end.

(** [Scripts(config, globalConfig)]: what the objects [config] and
    [globalConfig] hold after the call, and the run of the body. *)
Definition Scripts (config : gmap string Script) (globalConfig : GlobalConfig)
  : (gmap string Script * GlobalConfig) * Prog unit :=
  match Deno_args w with
  | [] | EmptyString :: _ =>
      ((config, globalConfig), fail "Specify a script to be executed!")
  | scriptArg :: restArg =>
      match get_script config scriptArg with
      | None =>
          ((config, globalConfig),
           fail ("script " +:+ dquote +:+ scriptArg +:+ dquote
                   +:+ " not found!"))
      | Some script =>
          let '(script, globalConfig) :=
            defaultCommonArgs script globalConfig in
          ((write_back config scriptArg script, globalConfig),
           Scripts_run script globalConfig restArg)
      end
  end.

End Scripts.

(** ** The helpers of [./lib], as the specification describes them *)

(** White space: space, tab, line feed, vertical tab, form feed, carriage
    return. *)
Definition is_space (c : ascii) : bool :=
  bool_decide (c ∈ [" "; "009"; "010"; "011"; "012"; "013"]%char).

Definition flush (cur : string) : list string :=
  if truthy_string cur then [cur] else [].

(** The tokens of [s], [cur] being the token read so far. *)
Fixpoint split_ws (cur s : string) : list string :=
  match s with
  | EmptyString => flush cur
  | String c rest =>
      if is_space c then flush cur ++ split_ws EmptyString rest
      else split_ws (cur +:+ String c EmptyString) rest
  end.

(** Modelled from the spec: [toArgsStringList] of [./lib/utils.ts] is not part
    of the sources.  It "splits a scalar command string into
    whitespace-delimited tokens or uses the value directly if already an
    ordered sequence". *)
Definition tokens (v : StringOrList) : list string :=
  match v with
  | OneString s => split_ws EmptyString s
  | StringList l => l
  end.

(** A string without white space. *)
Fixpoint no_space (s : string) : bool :=
  match s with
  | EmptyString => true
  | String c rest => negb (is_space c) && no_space rest
  end.

(** [s] with its white space removed. *)
Fixpoint strip_ws (s : string) : string :=
  match s with
  | EmptyString => EmptyString
  | String c rest =>
      if is_space c then strip_ws rest else String c (strip_ws rest)
  end.

(** The strings of [l] joined without a separator. *)
Definition glue (l : list string) : string := foldr String.append EmptyString l.

(** How the flags of the interpreter are spelled: a table that is not part of
    the sources and on which the specification is silent. *)
Record FlagSpelling := {
  permission_flags : Permissions → list string;
  tsconfig_flag : string → list string;
  importMap_flag : string → list string;
  unstable_flag : bool → list string;
}.

(** Modelled from the spec: the flag-emitting helpers of [./lib/args.ts] and
    [./lib/permissions.ts] are not part of the sources.  They "are pure
    functions of (local, global) value pairs and emit zero tokens when both
    are unset"; for each overridable field the "script-level value wins if
    present and non-undefined; otherwise fall back to global-level value",
    and these fields are "a simple override, not a merge". *)
Definition emit_flag {A} (spell : A → list string) (l g : option A)
  : list string :=
  match l ?? g with
  | Some v => spell v
  | None => []
  end.

Definition scalar_to_string (v : Scalar) : string :=
  match v with
  | SString s => s
  | SNumber n => pretty n
  | SBoolean b => if b then "true" else "false"
  end.

(** Modelled from the spec: the modules [./lib/args.ts],
    [./lib/permissions.ts], [./lib/utils.ts] and [./lib/env.ts] are not part
    of the sources.  [args] and [denoArgs] are a "string or ordered
    sequence, appended to the invocation"; [env] is a "mapping name→scalar"
    turned into a "mapping<string,string>". *)
Definition spec_lib (sp : FlagSpelling) : Lib :=
  {| argifyPermissions := emit_flag (permission_flags sp);
     argifyTsconfig := emit_flag (tsconfig_flag sp);
     argifyArgs := emit_flag tokens;
     argifyImportMap := λ g, emit_flag (importMap_flag sp) None g;
     argifyUnstable := λ g, emit_flag (unstable_flag sp) None g;
     toArgsStringList := tokens;
     loadEnvFromObject := fmap scalar_to_string |}.

(** ** Concrete data for the examples *)

Definition flag_if (b : option bool) (flag : string) : list string :=
  if bool_decide (b = Some true) then [flag] else [].

Definition flag_of (v : option BoolOrString) (flag : string) : list string :=
  match v with
  | Some (JBool true) => [flag]
  | Some (JString s) => [flag +:+ "=" +:+ s]
  | _ => []
  end.

(** A spelling after the command line of the interpreter. *)
Definition deno_flags : FlagSpelling :=
  {| permission_flags := λ p,
       flag_if (allowAll p) "--allow-all"
         ++ flag_if (allowEnv p) "--allow-env"
         ++ flag_if (allowHRTime p) "--allow-hrtime"
         ++ flag_of (allowNet p) "--allow-net"
         ++ flag_if (allowPlugin p) "--allow-plugin"
         ++ flag_of (allowRead p) "--allow-read"
         ++ flag_if (allowRun p) "--allow-run"
         ++ flag_of (allowWrite p) "--allow-write";
     tsconfig_flag := λ t, ["--config"; t];
     importMap_flag := λ m, ["--importmap"; m];
     unstable_flag := λ u, if u then ["--unstable"] else [] |}.

Definition deno_lib : Lib := spec_lib deno_flags.

(** [{ run: r }] and [{ file: f }]. *)
Definition ScriptRun (r : StringOrList) : Script :=
  {| file := None; run := Some r; script_config := noDenoConfig |}.

Definition ScriptFile (f : string) : Script :=
  {| file := Some f; run := None; script_config := noDenoConfig |}.

Definition with_watch (s : Script) (v : Watch) : Script :=
  {| file := file s; run := run s;
     script_config :=
       {| common := {| envFile := envFile s; env := env s; args := args s;
                       watch := Some v |};
          permissions := permissions s; tsconfig := tsconfig s;
          denoArgs := denoArgs s |} |}.

Definition with_global_watch (g : GlobalConfig) (v : Watch) : GlobalConfig :=
  {| deno_config :=
       {| common := {| envFile := envFile g; env := env g; args := args g;
                       watch := Some v |};
          permissions := permissions g; tsconfig := tsconfig g;
          denoArgs := denoArgs g |};
     debug := debug g; importMap := importMap g; unstable := unstable g |}.

(** The declaration of the test suite: [echo] runs a command, [log] a file. *)
Definition test_config : gmap string Script :=
  {[ "echo" := ScriptRun (OneString "echo hello world");
     "log" := ScriptFile "./log.ts" ]}.

Definition exited (c : Z) : ProcessStatus :=
  {| success := bool_decide (c = 0%Z); code := Some c; signal := None |}.

(** A child stopped by signal 9, as a status without a code. *)
Definition killed : ProcessStatus :=
  {| success := false; code := None; signal := Some 9%Z |}.

(** A world in which the files in [files] exist, every environment file that
    exists holds [dotenv], every child ends with [status] and the watcher
    yields [batches]. *)
Definition world (argv files : list string) (dotenv : gmap string string)
    (status : ProcessStatus) (batches : list (list Change)) : World :=
  {| Deno_args := argv;
     fs_exists := λ p, bool_decide (p ∈ files);
     loadEnvFromFile := λ p,
       if bool_decide (p ∈ files) then Some dotenv else None;
     child_status := λ _, status;
     watcher_batches := λ _ _, batches |}.

(** [{ file: "./log.ts", permissions: { allowAll: true }, args: "-v in.txt" }]. *)
Definition log_script : Script :=
  {| file := Some "./log.ts"; run := None;
     script_config :=
       {| common := {| envFile := None; env := None;
                       args := Some (OneString "-v in.txt"); watch := None |};
          permissions :=
            Some {| allowAll := Some true; allowEnv := None;
                    allowHRTime := None; allowNet := None;
                    allowPlugin := None; allowRead := None; allowRun := None;
                    allowWrite := None |};
          tsconfig := None; denoArgs := None |} |}.

(** [{ tsconfig: "tsconfig.json", denoArgs: ["--quiet"], env: { PORT: 80,
    MODE: "dev" }, importMap: "map.json", unstable: true }]. *)
Definition log_global : GlobalConfig :=
  {| deno_config :=
       {| common := {| envFile := None;
                       env := Some {[ "PORT" := SNumber 80;
                                      "MODE" := SString "dev" ]};
                       args := None; watch := None |};
          permissions := None; tsconfig := Some "tsconfig.json";
          denoArgs := Some (StringList ["--quiet"]) |};
     debug := None; importMap := Some "map.json"; unstable := Some true |}.

(** The declaration of the test suite with [watch: true] on [log]. *)
Definition watching_config : gmap string Script :=
  <["log" := with_watch (ScriptFile "./log.ts") (WatchBool true)]> test_config.

Definition one_change : list (list Change) :=
  [[ {| path := "./log.ts"; event := "modify" |} ]].

(** ** Reading a run *)

(** The children started, in order. *)
Definition runs (t : list Event) : list RunOptions :=
  omap (λ e, match e with DenoRun o => Some o | _ => None end) t.

(** The watchers created, in order. *)
Definition watchers (t : list Event) : list (list string * WatcherConfig) :=
  omap (λ e, match e with NewWatcher ps c => Some (ps, c) | _ => None end) t.

(** The trace of one iteration of the watch loop. *)
Definition batch_trace (changes : list Change) : list Event :=
  Log ("Detected " +:+ pretty (length changes) +:+ " change"
         +:+ (if bool_decide (1 < length changes) then "s" else EmptyString)
         +:+ ". Rerunning...")
    :: map (λ change,
              Debug ("File " +:+ dquote +:+ path change +:+ dquote +:+ " was "
                       +:+ event change)) changes.

(** The event of [if (watchModeEnabled) log("Watch mode enabled.")]. *)
Definition banner (script : Script) (g : GlobalConfig) : list Event :=
  if watchModeEnabled script g then [Log "Watch mode enabled."] else [].

(** The event of [if (globalConfig.debug) debug({...})]. *)
Definition debug_line (g : GlobalConfig) (opts : RunOptions) : list Event :=
  if bool_decide (debug g = Some true)
  then [DebugCommand (join_space (cmd opts)) (run_env opts)] else [].

(** ** The command line entry point [cli.ts] *)

(** [c.toLowerCase()] on one character.  Strings are sequences of bytes
    here, and only the letters A to Z are mapped; the characters outside
    ASCII that JavaScript maps as well have no lower case among the letters
    of the word the result is compared with. *)
Definition lower_ascii (c : ascii) : ascii :=
  let n := N_of_ascii c in
  if (65 <=? n)%N && (n <=? 90)%N then ascii_of_N (n + 32) else c.

(** [s.toLowerCase()]. *)
Fixpoint toLowerCase (s : string) : string :=
  match s with
  | EmptyString => EmptyString
  | String c rest => String (lower_ascii c) (toLowerCase rest)
  end.

Definition newline : string := String "010"%char EmptyString.

(** The lines of a text separated by line feeds. *)
Fixpoint unlines (l : list string) : string :=
  match l with
  | [] => EmptyString
  | [x] => x
  | x :: rest => x +:+ newline +:+ unlines rest
  end.

(** The template literal written to [./scripts.ts]. *)
Definition scripts_template : string :=
  unlines
    [ "import { Scripts } from " +:+ dquote
        +:+ "https://deno.land/x/deno_scripts/mod.ts" +:+ dquote +:+ ";";
      "        ";
      "        Scripts({";
      "          foo: {";
      "            run: " +:+ dquote +:+ "echo dev" +:+ dquote +:+ ",";
      "          },";
      "          bar: {";
      "            file: " +:+ dquote +:+ "./mod.ts" +:+ dquote +:+ ",";
      "          },";
      "        });" ].

(** The calls of [cli.ts] observable from outside: those of [mod.ts] and
    [Deno.writeTextFileSync(p, content)]. *)
Inductive CliEvent :=
| WriteTextFile (p content : string)
| Core (e : Event).

(** [Deno.run({ cmd })], whose status is awaited and dropped. *)
Definition plain_run (c : list string) : RunOptions :=
  {| cmd := c; inherit := false; run_env := None |}.

(** [readScriptsFile()]. *)
Definition readScriptsFile (w : World) : Prog unit :=
  if fs_exists w "./scripts.ts" then
    emit (DenoRun (plain_run
                     (["deno"; "run"; "-A"; "./scripts.ts"] ++ Deno_args w)))
  else fail "scripts.ts file not found!".

(** [case "init"] of the [switch] on [cmd.toLowerCase()]. *)
Definition is_init (cmd : string) : bool :=
  String.eqb (toLowerCase cmd) "init".

(** The word "init" in every mix of upper and lower case. *)
Definition init_spellings : list string :=
  a ← ["i"; "I"]%char; b ← ["n"; "N"]%char;
  c ← ["i"; "I"]%char; d ← ["t"; "T"]%char;
  [String a (String b (String c (String d EmptyString)))].

(** The module body of [cli.ts]: [cmd] is the first element of [Deno.args],
    the empty string when there is none, followed by the [switch] on
    [cmd.toLowerCase()]. *)
Definition cli (w : World) : list CliEvent * (Outcome + unit) :=
  let cmd := hd EmptyString (Deno_args w) in
  if is_init cmd then
    if fs_exists w "./scripts.ts" then
      ([Core (Log "scripts.ts file already exists.")], inr tt)
    else
      ([WriteTextFile "./scripts.ts" scripts_template;
        Core (DenoRun (plain_run ["deno"; "cache"; "./scripts.ts"]));
        Core (DenoRun (plain_run ["deno"; "fmt"; "-q"; "./scripts.ts"]));
        Core (Log (newline +:+ "scripts.ts file created."))],
       inr tt)
  else
    (Core <$> (readScriptsFile w).1, (readScriptsFile w).2).

(** The files written, in order. *)
Definition writes (t : list CliEvent) : list (string * string) :=
  omap (λ e, match e with WriteTextFile p c => Some (p, c) | _ => None end) t.

(** The children started by [cli.ts], in order. *)
Definition cli_runs (t : list CliEvent) : list RunOptions :=
  omap (λ e, match e with Core (DenoRun o) => Some o | _ => None end) t.

(** ** More data for the examples *)

(** The script [s] with its property [run] removed. *)
Definition without_run (s : Script) : Script :=
  {| file := file s; run := None; script_config := script_config s |}.

Definition with_envFile (s : Script) (v : BoolOrString) : Script :=
  {| file := file s; run := run s;
     script_config := set_deno_envFile s v |}.

Definition with_debug (g : GlobalConfig) : GlobalConfig :=
  {| deno_config := deno_config g; debug := Some true;
     importMap := importMap g; unstable := unstable g |}.

(** [{ paths: ps }] as a watch options object. *)
Definition watch_paths (ps : option (list string)) : WatchOptions :=
  {| paths := Held ps; match_ := Absent; skip := Absent;
     extensions := Absent; interval := Absent; recursive := Absent |}.

(** ** The resolution of [watch] as the specification words it

    For comparison with [watchModeEnabled] and [watchOptions]; these two
    definitions follow the words of the specification, not the code. *)

(** "Shallow key union, script keys override global keys on conflict". *)
Definition keywise_union (global script : WatchOptions) : WatchOptions :=
  {| paths :=
       match paths script with Absent => paths global | Held v => Held v end;
     match_ :=
       match match_ script with Absent => match_ global | Held v => Held v end;
     skip :=
       match skip script with Absent => skip global | Held v => Held v end;
     extensions :=
       match extensions script with
       | Absent => extensions global
       | Held v => Held v
       end;
     interval :=
       match interval script with
       | Absent => interval global
       | Held v => Held v
       end;
     recursive :=
       match recursive script with
       | Absent => recursive global
       | Held v => Held v
       end |}.

(** "Script-level value wins if present and non-undefined; otherwise fall
    back to global-level value", except that "watch-as-object" is merged. *)
Definition stated_watch (script global : option Watch) : option Watch :=
  match script, global with
  | Some (WatchObject so), Some (WatchObject go) =>
      Some (WatchObject (keywise_union go so))
  | Some v, _ => Some v
  | None, _ => global
  end.

(** The four ways in which the statements after [defaultCommonArgs] end. *)
Inductive Ending (w : World) (script : Script) (g : GlobalConfig)
  : Prog unit → Prop :=
| ending_rejected :
    Ending w script g (stop Rejected)
| ending_fatal (msg : string) :
    Ending w script g (banner script g, inl (Fatal msg))
| ending_watch (ps : list string) (c : WatcherConfig)
    (batches : list (list Change)) :
    Ending w script g
      (Log "Watch mode enabled." :: NewWatcher ps c
         :: (batches ≫= batch_trace), inr tt)
| ending_exit (opts : RunOptions) :
    Ending w script g
      (banner script g ++ debug_line g opts ++ [DenoRun opts],
       inl (Exit (code (child_status w opts)))).

(** * Properties *)

(** ** The monad *)

Lemma bind_ret {A B} (a : A) (k : A → Prog B) : mret a ≫= k = k a.
Proof. unfold mret, mbind, Prog_ret, Prog_bind. simpl. by destruct (k a). Qed.

Lemma bind_emit {B} (e : Event) (k : unit → Prog B) :
  emit e ≫= k = (e :: (k tt).1, (k tt).2).
Proof. reflexivity. Qed.

Lemma bind_value {A B} (t : list Event) (a : A) (k : A → Prog B) :
  ((t, inr a) : Prog A) ≫= k = (t ++ (k a).1, (k a).2).
Proof. reflexivity. Qed.

Lemma runs_app (t u : list Event) : runs (t ++ u) = runs t ++ runs u.
Proof. apply omap_app. Qed.

Lemma watchers_app (t u : list Event) :
  watchers (t ++ u) = watchers t ++ watchers u.
Proof. apply omap_app. Qed.

(** ** Strings *)

Lemma prefix_append (s t : string) : String.prefix s (s +:+ t) = true.
Proof.
  induction s as [|c s IH]; simpl; [by destruct t|].
  by destruct (Ascii.ascii_dec c c).
Qed.

Lemma includes_unfold (msg s : string) :
  includes msg s =
  if String.prefix s msg then true
  else match msg with
       | EmptyString => false
       | String _ rest => includes rest s
       end.
Proof. by destruct msg. Qed.

Lemma includes_append (pre s post : string) :
  includes (pre +:+ s +:+ post) s = true.
Proof.
  induction pre as [|c pre IH]; rewrite includes_unfold.
  - change (EmptyString +:+ s +:+ post) with (s +:+ post).
    by rewrite prefix_append.
  - change (String c pre +:+ s +:+ post) with (String c (pre +:+ s +:+ post)).
    destruct (String.prefix s (String c (pre +:+ s +:+ post))); [done|].
    exact IH.
Qed.

(** ** The watch loop *)

Lemma for_of_cons {A} (x : A) (l : list A) (body : A → Prog unit) :
  for_of (x :: l) body = body x ≫= λ _, for_of l body.
Proof. reflexivity. Qed.

Lemma on_changes_run (changes : list Change) :
  on_changes changes = (batch_trace changes, inr tt).
Proof.
  unfold on_changes, batch_trace, log. rewrite bind_emit.
  set (body := λ change : Change, debug_msg _).
  set (ev := λ change : Change, Debug _).
  assert (H : for_of changes body = (map ev changes, inr tt)).
  { induction changes as [|c cs IH]; [done|].
    rewrite for_of_cons. change (body c) with (emit (ev c)).
    rewrite bind_emit, IH. done. }
  by rewrite H.
Qed.

Lemma watch_loop_run (batches : list (list Change)) :
  for_of batches on_changes = (batches ≫= batch_trace, inr tt).
Proof.
  induction batches as [|b bs IH]; [done|].
  rewrite for_of_cons, on_changes_run, bind_value, IH. done.
Qed.

Lemma runs_batch_trace (changes : list Change) : runs (batch_trace changes) = [].
Proof.
  unfold batch_trace. simpl. induction changes as [|c cs IH]; [done|]. exact IH.
Qed.

Lemma runs_watch_loop (batches : list (list Change)) :
  runs (batches ≫= batch_trace) = [].
Proof.
  induction batches as [|b bs IH]; [done|].
  by rewrite bind_cons, runs_app, runs_batch_trace, IH.
Qed.

(** ** The steps of [Scripts] *)

Section Steps.
Context (lib : Lib) (w : World).

(** What [defaultCommonArgs] leaves alone. *)
Lemma defaultCommonArgs_local (script : Script) (g : GlobalConfig) :
  (defaultCommonArgs w script g).1 = script.
Proof.
  unfold defaultCommonArgs.
  by destruct (envFile g), (fs_exists w ".env").
Qed.

Lemma defaultCommonArgs_frame (script : Script) (g : GlobalConfig) :
  let g' := (defaultCommonArgs w script g).2 in
  env g' = env g ∧ args g' = args g ∧ watch g' = watch g
  ∧ permissions g' = permissions g ∧ tsconfig g' = tsconfig g
  ∧ denoArgs g' = denoArgs g ∧ debug g' = debug g
  ∧ importMap g' = importMap g ∧ unstable g' = unstable g.
Proof.
  unfold defaultCommonArgs.
  by destruct (envFile g), (fs_exists w ".env").
Qed.

Lemma defaultCommonArgs_envFile (script : Script) (g : GlobalConfig) :
  envFile (defaultCommonArgs w script g).2 =
  match envFile g with
  | Some v => Some v
  | None => if fs_exists w ".env" then Some (JBool true) else None
  end.
Proof.
  unfold defaultCommonArgs.
  destruct (envFile g) eqn:E; [done|].
  by destruct (fs_exists w ".env").
Qed.

Lemma write_back_same (config : gmap string Script) (key : string)
    (script : Script) :
  (config !! key = None ∨ config !! key = Some script) →
  write_back config key script = config.
Proof.
  unfold write_back. intros [H|H]; rewrite H; [done|].
  by apply insert_id.
Qed.

(** A name that is an own key of [config] selects the script stored
    there. *)
Lemma Scripts_found (config : gmap string Script) (g : GlobalConfig)
    (name : string) (rest : list string) (script : Script) :
  Deno_args w = name :: rest →
  name ≠ EmptyString →
  config !! name = Some script →
  Scripts lib w config g =
  ((config, (defaultCommonArgs w script g).2),
   Scripts_run lib w script (defaultCommonArgs w script g).2 rest).
Proof.
  intros Hargs Hname Hget. unfold Scripts, get_script.
  rewrite Hargs, Hget. destruct name as [|c name]; [done|].
  pose proof (defaultCommonArgs_local script g) as Hl.
  destruct (defaultCommonArgs w script g) as [s' g']. simpl in *. subst s'.
  by rewrite write_back_same by auto.
Qed.

(** The environment step emits nothing; it yields a value or rejects. *)
Lemma Scripts_env_file_cases (script : Script) (g : GlobalConfig) :
  Scripts_env_file w script g = stop Rejected
  ∨ ∃ e, Scripts_env_file w script g = mret e.
Proof.
  unfold Scripts_env_file.
  destruct (Scripts_envFile script g) as [v|]; [|by eauto].
  destruct (truthy_bos v); [|by eauto].
  destruct (loadEnvFromFile w _); eauto.
Qed.

Lemma Scripts_env_cases (script : Script) (g : GlobalConfig) :
  Scripts_env lib w script g = stop Rejected
  ∨ ∃ e, Scripts_env lib w script g = mret e.
Proof.
  unfold Scripts_env.
  destruct (Scripts_env_file_cases script g) as [H|[e H]]; rewrite H.
  - by left.
  - right. eexists. by rewrite bind_ret.
Qed.

Lemma launch_run (g : GlobalConfig) (opts : RunOptions) :
  launch w g opts =
  (debug_line g opts ++ [DenoRun opts],
   inl (Exit (code (child_status w opts)))).
Proof.
  unfold launch, debug_line, when.
  by destruct (bool_decide (debug g = Some true)).
Qed.

Lemma Scripts_run_rejected (script : Script) (g : GlobalConfig)
    (rest : list string) :
  Scripts_env lib w script g = stop Rejected →
  Scripts_run lib w script g rest = stop Rejected.
Proof. intros H. unfold Scripts_run. by rewrite H. Qed.

Lemma Scripts_run_file_missing (script : Script) (g : GlobalConfig)
    (rest : list string) (f : string) (e : option (gmap string string)) :
  Scripts_env lib w script g = mret e →
  file script = Some f → f ≠ EmptyString → fs_exists w f = false →
  Scripts_run lib w script g rest =
  (banner script g, inl (Fatal ("File " +:+ f +:+ " not found!"))).
Proof.
  intros He Hf Hne Hex. unfold Scripts_run, banner, when.
  rewrite He, bind_ret, Hf. destruct f as [|c f]; [done|].
  rewrite Hex. by destruct (watchModeEnabled script g).
Qed.

Lemma Scripts_run_file_watch (script : Script) (g : GlobalConfig)
    (rest : list string) (f : string) (e : option (gmap string string)) :
  Scripts_env lib w script g = mret e →
  file script = Some f → f ≠ EmptyString → fs_exists w f = true →
  watchModeEnabled script g = true →
  let o := watchOptions script g in
  let ps := f :: default [] (read (paths o)) in
  Scripts_run lib w script g rest =
  (Log "Watch mode enabled." :: NewWatcher ps (watcher_config o)
     :: (watcher_batches w ps (watcher_config o) ≫= batch_trace),
   inr tt).
Proof.
  intros He Hf Hne Hex Hw. unfold Scripts_run, when.
  rewrite He, bind_ret, Hf, Hw. destruct f as [|c f]; [done|].
  rewrite Hex. cbv zeta. rewrite watch_loop_run. done.
Qed.

Lemma Scripts_run_file_once (script : Script) (g : GlobalConfig)
    (rest : list string) (f : string) (e : option (gmap string string)) :
  Scripts_env lib w script g = mret e →
  file script = Some f → f ≠ EmptyString → fs_exists w f = true →
  watchModeEnabled script g = false →
  let opts := {| cmd := file_cmd lib script g f rest; inherit := true;
                 run_env := e |} in
  Scripts_run lib w script g rest =
  (debug_line g opts ++ [DenoRun opts],
   inl (Exit (code (child_status w opts)))).
Proof.
  intros He Hf Hne Hex Hw. unfold Scripts_run, when.
  rewrite He, bind_ret, Hf, Hw. destruct f as [|c f]; [done|].
  rewrite Hex. cbv zeta. rewrite launch_run. done.
Qed.

Lemma Scripts_run_command (script : Script) (g : GlobalConfig)
    (rest : list string) (r : StringOrList)
    (e : option (gmap string string)) :
  Scripts_env lib w script g = mret e →
  (file script = None ∨ file script = Some EmptyString) →
  run script = Some r → truthy_sol r = true →
  let opts := {| cmd := run_cmd lib script g r rest; inherit := false;
                 run_env := e |} in
  Scripts_run lib w script g rest =
  (banner script g ++ debug_line g opts ++ [DenoRun opts],
   inl (Exit (code (child_status w opts)))).
Proof.
  intros He Hf Hr Ht. unfold Scripts_run, banner, when.
  rewrite He, bind_ret, Hr. cbv zeta.
  destruct Hf as [-> | ->]; rewrite Ht, launch_run;
    by destruct (watchModeEnabled script g).
Qed.

Lemma Scripts_run_no_target (script : Script) (g : GlobalConfig)
    (rest : list string) (e : option (gmap string string)) :
  Scripts_env lib w script g = mret e →
  (file script = None ∨ file script = Some EmptyString) →
  (run script = None ∨ ∃ r, run script = Some r ∧ truthy_sol r = false) →
  Scripts_run lib w script g rest =
  (banner script g, inl (Fatal "Script not found!")).
Proof.
  intros He Hf Hr. unfold Scripts_run, banner, when.
  rewrite He, bind_ret.
  destruct Hf as [-> | ->], Hr as [-> | (r & -> & ->)];
    by destruct (watchModeEnabled script g).
Qed.

End Steps.

(** ** Every run of the body ends in one of four ways *)

Section Endings.
Context (lib : Lib) (w : World).

Lemma banner_off (script : Script) (g : GlobalConfig) :
  watchModeEnabled script g = false → banner script g = [].
Proof. unfold banner. by intros ->. Qed.

Lemma banner_on (script : Script) (g : GlobalConfig) :
  watchModeEnabled script g = true →
  banner script g = [Log "Watch mode enabled."].
Proof. unfold banner. by intros ->. Qed.

Lemma Scripts_run_ending (script : Script) (g : GlobalConfig)
    (rest : list string) :
  Ending w script g (Scripts_run lib w script g rest).
Proof.
  destruct (Scripts_env_cases lib w script g) as [Hrej|[e He]].
  { rewrite (Scripts_run_rejected _ _ _ _ _ Hrej). constructor. }
  assert (Hcmd : file script = None ∨ file script = Some EmptyString →
                 Ending w script g (Scripts_run lib w script g rest)).
  { intros Hf. destruct (run script) as [r|] eqn:Hr.
    - destruct (truthy_sol r) eqn:Ht.
      + rewrite (Scripts_run_command lib w script g rest r e) by done.
        constructor.
      + rewrite (Scripts_run_no_target lib w script g rest e) by eauto.
        constructor.
    - rewrite (Scripts_run_no_target lib w script g rest e) by eauto.
      constructor. }
  destruct (file script) as [[|c f]|] eqn:Hf; [by auto| |by auto].
  destruct (fs_exists w (String c f)) eqn:Hex.
  - destruct (watchModeEnabled script g) eqn:Hw.
    + rewrite (Scripts_run_file_watch lib w script g rest _ e) by done.
      constructor.
    + rewrite (Scripts_run_file_once lib w script g rest _ e) by done.
      pose proof (ending_exit w script g
        {| cmd := file_cmd lib script g (String c f) rest; inherit := true;
           run_env := e |}) as H.
      by rewrite (banner_off script g Hw) in H.
  - rewrite (Scripts_run_file_missing lib w script g rest _ e) by done.
    constructor.
Qed.

End Endings.

(** ** From the body to the whole call *)

Section Whole.
Context (lib : Lib) (w : World).

(** The fields read after [defaultCommonArgs] other than [envFile] are
    those of the object that was passed in. *)
Lemma watchModeEnabled_default (script : Script) (g : GlobalConfig) :
  watchModeEnabled script (defaultCommonArgs w script g).2
  = watchModeEnabled script g.
Proof.
  unfold watchModeEnabled.
  by destruct (defaultCommonArgs_frame w script g) as (_ & _ & -> & _).
Qed.

Lemma watchOptions_default (script : Script) (g : GlobalConfig) :
  watchOptions script (defaultCommonArgs w script g).2
  = watchOptions script g.
Proof.
  unfold watchOptions.
  by destruct (defaultCommonArgs_frame w script g) as (_ & _ & -> & _).
Qed.

Lemma banner_default (script : Script) (g : GlobalConfig) :
  banner script (defaultCommonArgs w script g).2 = banner script g.
Proof. unfold banner. by rewrite watchModeEnabled_default. Qed.

Lemma debug_line_default (script : Script) (g : GlobalConfig)
    (opts : RunOptions) :
  debug_line (defaultCommonArgs w script g).2 opts = debug_line g opts.
Proof.
  unfold debug_line.
  by destruct (defaultCommonArgs_frame w script g)
    as (_ & _ & _ & _ & _ & _ & -> & _).
Qed.

Lemma file_cmd_default (script : Script) (g : GlobalConfig) (f : string)
    (rest : list string) :
  file_cmd lib script (defaultCommonArgs w script g).2 f rest
  = file_cmd lib script g f rest.
Proof.
  unfold file_cmd.
  by destruct (defaultCommonArgs_frame w script g)
    as (_ & -> & _ & -> & -> & -> & _ & -> & ->).
Qed.

Lemma run_cmd_default (script : Script) (g : GlobalConfig) (r : StringOrList)
    (rest : list string) :
  run_cmd lib script (defaultCommonArgs w script g).2 r rest
  = run_cmd lib script g r rest.
Proof.
  unfold run_cmd.
  by destruct (defaultCommonArgs_frame w script g) as (_ & -> & _).
Qed.

(** Either the call fails before a script is selected, or the body runs on
    a selected script. *)
Lemma Scripts_cases (config : gmap string Script) (g : GlobalConfig) :
  (∃ msg, Scripts lib w config g = ((config, g), fail msg))
  ∨ (∃ script rest,
       Scripts lib w config g =
       ((config, (defaultCommonArgs w script g).2),
        Scripts_run lib w script (defaultCommonArgs w script g).2 rest)).
Proof.
  unfold Scripts.
  destruct (Deno_args w) as [|[|c name] rest]; [by eauto|by eauto|].
  unfold get_script.
  destruct (config !! String c name) as [script|] eqn:Hget.
  - right. exists script, rest.
    pose proof (defaultCommonArgs_local w script g) as Hl.
    destruct (defaultCommonArgs w script g) as [s' g']. simpl in *. subst s'.
    by rewrite write_back_same by auto.
  - case_bool_decide; [|by eauto].
    right. exists inherited_value, rest.
    pose proof (defaultCommonArgs_local w inherited_value g) as Hl.
    destruct (defaultCommonArgs w inherited_value g) as [s' g'].
    simpl in *. subst s'. by rewrite write_back_same by auto.
Qed.

Lemma runs_banner (script : Script) (g : GlobalConfig) :
  runs (banner script g) = [].
Proof. unfold banner. by destruct (watchModeEnabled script g). Qed.

Lemma runs_debug_line (g : GlobalConfig) (opts : RunOptions) :
  runs (debug_line g opts) = [].
Proof. unfold debug_line. by case_bool_decide. Qed.

Lemma watchers_banner (script : Script) (g : GlobalConfig) :
  watchers (banner script g) = [].
Proof. unfold banner. by destruct (watchModeEnabled script g). Qed.

Lemma watchers_debug_line (g : GlobalConfig) (opts : RunOptions) :
  watchers (debug_line g opts) = [].
Proof. unfold debug_line. by case_bool_decide. Qed.

(** A run that starts a child starts exactly one, creates no watcher and
    ends in [Deno.exit] with the code of that child's status. *)
Lemma Ending_child (script : Script) (g : GlobalConfig) (p : Prog unit)
    (opts : RunOptions) :
  Ending w script g p →
  opts ∈ runs p.1 →
  runs p.1 = [opts] ∧ watchers p.1 = []
  ∧ p.2 = inl (Exit (code (child_status w opts))).
Proof.
  intros [|msg|ps c batches|o]; simpl.
  - by intros ?%elem_of_nil.
  - rewrite runs_banner. by intros ?%elem_of_nil.
  - rewrite runs_watch_loop. by intros ?%elem_of_nil.
  - rewrite !runs_app, runs_banner, runs_debug_line.
    rewrite !watchers_app, watchers_banner, watchers_debug_line. simpl.
    by intros ->%list_elem_of_singleton.
Qed.

(** A run that creates a watcher starts no child. *)
Lemma Ending_watcher (script : Script) (g : GlobalConfig) (p : Prog unit) :
  Ending w script g p →
  watchers p.1 ≠ [] →
  runs p.1 = [].
Proof.
  intros [|msg|ps c batches|o]; simpl.
  - done.
  - by rewrite runs_banner.
  - by rewrite runs_watch_loop.
  - rewrite !watchers_app, watchers_banner, watchers_debug_line. done.
Qed.

End Whole.

(** ** C1: the watch loop *)

(** C1.  In watch mode the run of a file script consists of the line
    "Watch mode enabled.", the creation of the watcher and, for every batch
    the watcher yields, one line "Detected n change(s). Rerunning..." with
    the number of changes of the batch followed by one debug line per
    change.  Nothing else happens on a batch: the whole run starts no child
    process, so a batch is logged but triggers no rerun. *)
Theorem C1_batch_logged_but_nothing_rerun
    (lib : Lib) (w : World) (config : gmap string Script) (g : GlobalConfig)
    (name f : string) (rest : list string) (script : Script)
    (e : option (gmap string string)) :
  Deno_args w = name :: rest →
  name ≠ EmptyString →
  config !! name = Some script →
  file script = Some f → f ≠ EmptyString → fs_exists w f = true →
  watchModeEnabled script g = true →
  Scripts_env lib w script (defaultCommonArgs w script g).2 = mret e →
  let o := watchOptions script g in
  let ps := f :: default [] (read (paths o)) in
  (Scripts lib w config g).2 =
    (Log "Watch mode enabled." :: NewWatcher ps (watcher_config o)
       :: (watcher_batches w ps (watcher_config o) ≫= batch_trace),
     inr tt)
  ∧ runs (Scripts lib w config g).2.1 = [].
Proof.
  intros Hargs Hname Hget Hf Hne Hex Hw He o ps.
  rewrite (Scripts_found lib w config g name rest script) by done.
  cbn [snd fst].
  rewrite (Scripts_run_file_watch lib w script _ rest f e)
    by (by rewrite ?watchModeEnabled_default).
  rewrite watchOptions_default. split; [done|].
  cbn [fst]. cbn [runs omap]. apply runs_watch_loop.
Qed.

Lemma C1_one_change_witness :
  let w := world ["log"] ["./log.ts"] ∅ (exited 0) one_change in
  (Scripts deno_lib w watching_config emptyGlobalConfig).2 =
    ([Log "Watch mode enabled.";
      NewWatcher ["./log.ts"] (watcher_config noWatchOptions);
      Log "Detected 1 change. Rerunning...";
      Debug ("File " +:+ dquote +:+ "./log.ts" +:+ dquote +:+ " was modify")],
     inr tt)
  ∧ runs (Scripts deno_lib w watching_config emptyGlobalConfig).2.1 = [].
Proof.
  intros w.
  exact (C1_batch_logged_but_nothing_rerun deno_lib w watching_config
           emptyGlobalConfig "log" "./log.ts" []
           (with_watch (ScriptFile "./log.ts") (WatchBool true)) None
           eq_refl ltac:(discriminate) eq_refl eq_refl ltac:(discriminate)
           eq_refl eq_refl eq_refl).
Defined.

(** ** C7: unknown script names *)

(** No name on the command line: the message asks for one. *)
Lemma Scripts_without_name (lib : Lib) (w : World)
    (config : gmap string Script) (g : GlobalConfig) :
  Deno_args w = [] ∨ (∃ rest, Deno_args w = EmptyString :: rest) →
  Scripts lib w config g =
  ((config, g), fail "Specify a script to be executed!").
Proof. unfold Scripts. by intros [-> | [rest ->]]. Qed.

(** A name that is neither a key of the declaration nor a property of
    [Object.prototype] is reported by name. *)
Lemma Scripts_unknown_name (lib : Lib) (w : World)
    (config : gmap string Script) (g : GlobalConfig)
    (name : string) (rest : list string) :
  Deno_args w = name :: rest →
  name ≠ EmptyString →
  config !! name = None →
  name ∉ Object_prototype_keys →
  ∃ msg, Scripts lib w config g = ((config, g), fail msg)
         ∧ msg = "script " +:+ dquote +:+ name +:+ dquote +:+ " not found!"
         ∧ includes msg name = true.
Proof.
  intros Hargs Hname Hget Hproto. unfold Scripts, get_script.
  rewrite Hargs, Hget. destruct name as [|c name]; [done|].
  rewrite bool_decide_eq_false_2 by done.
  eexists. split; [done|]. split; [done|].
  apply (includes_append ("script " +:+ dquote) (String c name)
           (dquote +:+ " not found!")).
Qed.

(** C7.  With the declaration of the test suite and the script name
    "toString", which is not a key of the declaration, the lookup finds the
    method inherited from [Object.prototype]: the call ends with the fatal
    message "Script not found!", which does not contain the name. *)
Theorem C7_inherited_name_is_not_reported :
  let w := world ["toString"] [] ∅ (exited 0) [] in
  test_config !! "toString" = None
  ∧ (Scripts deno_lib w test_config emptyGlobalConfig).2
    = fail "Script not found!"
  ∧ includes "Script not found!" "toString" = false.
Proof. by vm_compute. Qed.

(** ** C8: the target file of a file script *)

(** C8.  For a file script whose target file does not exist, no child
    process is started and no watcher is created; and unless loading the
    environment file has already rejected, the call ends in a fatal error
    whose message contains the path of the file (the message is
    "File <path> not found!" for a non-empty path) and whose exit code is
    not zero. *)
Theorem C8_missing_file_is_fatal
    (lib : Lib) (w : World) (config : gmap string Script) (g : GlobalConfig)
    (name f : string) (rest : list string) (script : Script) :
  Deno_args w = name :: rest →
  name ≠ EmptyString →
  config !! name = Some script →
  file script = Some f → run script = None →
  fs_exists w f = false →
  let r := (Scripts lib w config g).2 in
  runs r.1 = [] ∧ watchers r.1 = []
  ∧ (Scripts_env lib w script (defaultCommonArgs w script g).2
       ≠ stop Rejected →
     ∃ msg, r.2 = inl (Fatal msg)
            ∧ includes msg f = true
            ∧ (f ≠ EmptyString → msg = "File " +:+ f +:+ " not found!")
            ∧ exit_code (Fatal msg) ≠ 0%Z).
Proof.
  intros Hargs Hname Hget Hf Hr Hex.
  rewrite (Scripts_found lib w config g name rest script) by done.
  cbn [snd]. set (g' := (defaultCommonArgs w script g).2).
  destruct (Scripts_env_cases lib w script g') as [Hrej|[e He]].
  { rewrite (Scripts_run_rejected _ _ _ _ _ Hrej). by repeat split. }
  destruct (decide (f = EmptyString)) as [->|Hne].
  - rewrite (Scripts_run_no_target lib w script g' rest e) by auto.
    cbn [fst snd]. rewrite runs_banner, watchers_banner.
    repeat split. intros _. eexists. by repeat split.
  - rewrite (Scripts_run_file_missing lib w script g' rest f e) by done.
    cbn [fst snd]. rewrite runs_banner, watchers_banner.
    repeat split. intros _. eexists. split; [done|].
    split; [|done]. apply (includes_append "File " f " not found!").
Qed.

Lemma C8_missing_log_witness :
  let w := world ["log"] [] ∅ (exited 0) [] in
  let r := (Scripts deno_lib w test_config emptyGlobalConfig).2 in
  runs r.1 = [] ∧ watchers r.1 = []
  ∧ (Scripts_env deno_lib w (ScriptFile "./log.ts")
       (defaultCommonArgs w (ScriptFile "./log.ts") emptyGlobalConfig).2
       ≠ stop Rejected →
     ∃ msg, r.2 = inl (Fatal msg)
            ∧ includes msg "./log.ts" = true
            ∧ ("./log.ts" ≠ EmptyString → msg = "File ./log.ts not found!")
            ∧ exit_code (Fatal msg) ≠ 0%Z).
Proof.
  intros w.
  exact (C8_missing_file_is_fatal deno_lib w test_config emptyGlobalConfig
           "log" "./log.ts" [] (ScriptFile "./log.ts")
           eq_refl ltac:(discriminate) eq_refl eq_refl eq_refl eq_refl).
Defined.

(** ** C9: the exit code *)

(** C9 as stated fails: a child whose status carries no exit code does not
    make the orchestrator fail.  The absent code is handed to [Deno.exit],
    and the process exits with 0. *)
Lemma C9_absent_code_exits_with_zero :
  let w := world ["echo"] [] ∅ killed [] in
  let r := (Scripts deno_lib w test_config emptyGlobalConfig).2 in
  ∃ opts, runs r.1 = [opts]
          ∧ code (child_status w opts) = None
          ∧ r.2 = inl (Exit None)
          ∧ exit_code (Exit None) = 0%Z.
Proof. eexists. by vm_compute. Qed.

(** C9 (amended).  Whenever a call of [Scripts] starts a child process, it
    starts exactly one, creates no watcher, and ends by calling [Deno.exit]
    with the code of the child's status, unchanged: the orchestrator exits
    with the child's exact code when the status carries one, and with 0 when
    the status carries none. *)
Theorem C9_exit_with_code_of_child
    (lib : Lib) (w : World) (config : gmap string Script) (g : GlobalConfig)
    (opts : RunOptions) :
  let r := (Scripts lib w config g).2 in
  opts ∈ runs r.1 →
  runs r.1 = [opts] ∧ watchers r.1 = []
  ∧ r.2 = inl (Exit (code (child_status w opts)))
  ∧ (∀ c, code (child_status w opts) = Some c →
          exit_code (Exit (code (child_status w opts))) = c)
  ∧ (code (child_status w opts) = None →
     exit_code (Exit (code (child_status w opts))) = 0%Z).
Proof.
  intros r Hin.
  assert (H : runs r.1 = [opts] ∧ watchers r.1 = []
              ∧ r.2 = inl (Exit (code (child_status w opts)))).
  { subst r. destruct (Scripts_cases lib w config g)
      as [[msg Hs]|(script & rest & Hs)]; rewrite Hs in *; cbn [snd] in *.
    - by apply elem_of_nil in Hin.
    - eapply Ending_child; [apply Scripts_run_ending|done]. }
  destruct H as (H1 & H2 & H3). repeat split; try done.
  - intros c Hc. by rewrite Hc.
  - intros Hc. by rewrite Hc.
Qed.

Lemma C9_echo_exit_witness :
  let w := world ["echo"] [] ∅ (exited 3) [] in
  let r := (Scripts deno_lib w test_config emptyGlobalConfig).2 in
  let opts := {| cmd := ["echo"; "hello"; "world"]; inherit := false;
                 run_env := None |} in
  runs r.1 = [opts] ∧ watchers r.1 = []
  ∧ r.2 = inl (Exit (Some 3%Z))
  ∧ (∀ c, Some 3%Z = Some c → exit_code (Exit (Some 3%Z)) = c)
  ∧ ((Some 3%Z : option Z) = None → exit_code (Exit (Some 3%Z)) = 0%Z).
Proof.
  intros w r opts.
  apply (C9_exit_with_code_of_child deno_lib w test_config emptyGlobalConfig
           opts).
  vm_compute. apply list_elem_of_here.
Defined.

(** ** C10: a command script with watch enabled *)

Lemma with_watch_enabled (script : Script) (g : GlobalConfig) (v : Watch) :
  watchModeEnabled (with_watch script v) g = truthy_watch v.
Proof. reflexivity. Qed.

Lemma Scripts_env_with_watch (lib : Lib) (w : World) (script : Script)
    (g : GlobalConfig) (v : Watch) :
  Scripts_env lib w (with_watch script v) g = Scripts_env lib w script g.
Proof. reflexivity. Qed.

(** C10.  For a command script with watch enabled, the run consists of the
    line "Watch mode enabled.", the optional debug line and the start of one
    child running the composed command; no watcher is created, and the call
    ends in [Deno.exit] with the code of the child's status.  The run is the
    same whatever truthy value, boolean or options object, the script gives
    to [watch]. *)
Theorem C10_command_script_runs_once_under_watch
    (lib : Lib) (w : World) (config : gmap string Script) (g : GlobalConfig)
    (name : string) (rest : list string) (script : Script) (r : StringOrList)
    (e : option (gmap string string)) :
  Deno_args w = name :: rest →
  name ≠ EmptyString →
  config !! name = Some script →
  file script = None → run script = Some r → truthy_sol r = true →
  watchModeEnabled script g = true →
  Scripts_env lib w script (defaultCommonArgs w script g).2 = mret e →
  let opts := {| cmd := run_cmd lib script g r rest; inherit := false;
                 run_env := e |} in
  let p := (Scripts lib w config g).2 in
  p = (Log "Watch mode enabled." :: debug_line g opts ++ [DenoRun opts],
       inl (Exit (code (child_status w opts))))
  ∧ watchers p.1 = [] ∧ runs p.1 = [opts]
  ∧ ∀ v, truthy_watch v = true →
         Scripts_run lib w (with_watch script v)
           (defaultCommonArgs w script g).2 rest = p.
Proof.
  intros Hargs Hname Hget Hf Hr Ht Hw He opts p.
  assert (Hp : p = (Log "Watch mode enabled." :: debug_line g opts
                      ++ [DenoRun opts],
                    inl (Exit (code (child_status w opts))))).
  { subst p.
    rewrite (Scripts_found lib w config g name rest script) by done.
    cbn [snd].
    rewrite (Scripts_run_command lib w script _ rest r e) by auto.
    rewrite banner_default, debug_line_default, run_cmd_default.
    by rewrite (banner_on script g Hw). }
  split; [done|]. rewrite Hp. cbn [fst].
  split; [|split].
  - change (watchers (?x :: ?l)) with (watchers l).
    by rewrite watchers_app, watchers_debug_line.
  - change (runs (?x :: ?l)) with (runs l).
    by rewrite runs_app, runs_debug_line.
  - intros v Hv.
    rewrite (Scripts_run_command lib w (with_watch script v) _ rest r e);
      [|done|by left|done|done].
    rewrite (banner_on (with_watch script v)); [|by rewrite with_watch_enabled].
    change (run_cmd lib (with_watch script v)) with (run_cmd lib script).
    by rewrite debug_line_default, run_cmd_default.
Qed.

Lemma C10_watched_echo_witness :
  let w := world ["echo"; "again"] [] ∅ (exited 0) one_change in
  let script := with_watch (ScriptRun (OneString "echo hello world"))
                  (WatchBool true) in
  let config : gmap string Script := {[ "echo" := script ]} in
  let opts := {| cmd := ["echo"; "hello"; "world"; "again"]; inherit := false;
                 run_env := None |} in
  let p := (Scripts deno_lib w config emptyGlobalConfig).2 in
  p = ([Log "Watch mode enabled."; DenoRun opts], inl (Exit (Some 0%Z)))
  ∧ watchers p.1 = [] ∧ runs p.1 = [opts]
  ∧ ∀ v, truthy_watch v = true →
         Scripts_run deno_lib w (with_watch script v)
           (defaultCommonArgs w script emptyGlobalConfig).2 ["again"] = p.
Proof.
  intros w script config opts p.
  exact (C10_command_script_runs_once_under_watch deno_lib w config
           emptyGlobalConfig "echo" ["again"] script
           (OneString "echo hello world") None
           eq_refl ltac:(discriminate) eq_refl eq_refl eq_refl eq_refl
           eq_refl eq_refl).
Defined.

(** ** C5 and C6: the composed command *)

Lemma append_cons (c : ascii) (s t : string) :
  String c s +:+ t = String c (s +:+ t).
Proof. reflexivity. Qed.

Lemma append_empty_r (s : string) : s +:+ EmptyString = s.
Proof. induction s as [|c s IH]; [done|]. by rewrite append_cons, IH. Qed.

Lemma append_assoc (s t u : string) : (s +:+ t) +:+ u = s +:+ (t +:+ u).
Proof. induction s as [|c s IH]; [done|]. by rewrite !append_cons, IH. Qed.

Lemma no_space_append (s t : string) :
  no_space (s +:+ t) = no_space s && no_space t.
Proof.
  induction s as [|c s IH]; [done|].
  rewrite append_cons. cbn [no_space]. rewrite IH.
  by destruct (is_space c).
Qed.

Lemma glue_app (l k : list string) : glue (l ++ k) = glue l +:+ glue k.
Proof.
  induction l as [|x l IH]; [done|].
  cbn [app glue foldr]. fold (glue l). fold (glue (l ++ k)).
  by rewrite IH, append_assoc.
Qed.

Lemma glue_flush (cur : string) : glue (flush cur) = cur.
Proof.
  destruct cur as [|c cur]; [done|].
  change (String c cur +:+ EmptyString = String c cur).
  apply append_empty_r.
Qed.

(** The tokens of a string are not empty and hold no white space. *)
Lemma split_ws_tokens (cur s : string) :
  no_space cur = true →
  Forall (λ t, truthy_string t = true ∧ no_space t = true) (split_ws cur s).
Proof.
  revert cur. induction s as [|c s IH]; intros cur Hcur; simpl.
  - unfold flush. destruct cur; [constructor|]. by repeat constructor.
  - destruct (is_space c) eqn:Hc.
    + apply Forall_app. split; [|by apply IH].
      unfold flush. destruct cur; [constructor|]. by repeat constructor.
    + apply IH. rewrite no_space_append, Hcur. simpl. by rewrite Hc.
Qed.

(** Glued together, the tokens are the string without its white space. *)
Lemma split_ws_glue (cur s : string) :
  glue (split_ws cur s) = cur +:+ strip_ws s.
Proof.
  revert cur. induction s as [|c s IH]; intros cur.
  - change (glue (flush cur) = cur +:+ EmptyString).
    by rewrite glue_flush, append_empty_r.
  - cbn [split_ws strip_ws]. destruct (is_space c).
    + by rewrite glue_app, glue_flush, IH.
    + by rewrite IH, append_assoc.
Qed.

(** C5.  For a command script, with the helpers as the specification
    describes them, the call starts exactly one child, whose argument vector
    is the tokens of [run], then the tokens of the script's [args] (those of
    the global [args] when the script has none), then the rest arguments.
    The tokens of an array are its elements; the tokens of a string are its
    maximal pieces free of white space: none is empty, none holds white
    space, and glued together they give the string without its white space.
    For [run: "echo hello"] without [args] the vector is "echo", "hello" and
    the rest arguments. *)
Theorem C5_command_argv
    (sp : FlagSpelling) (w : World) (config : gmap string Script)
    (g : GlobalConfig) (name : string) (rest : list string) (script : Script)
    (r : StringOrList) (e : option (gmap string string)) :
  Deno_args w = name :: rest →
  name ≠ EmptyString →
  config !! name = Some script →
  file script = None → run script = Some r → truthy_sol r = true →
  Scripts_env (spec_lib sp) w script (defaultCommonArgs w script g).2
    = mret e →
  let argv := tokens r ++ from_option tokens [] (args script ?? args g)
                ++ rest in
  runs (Scripts (spec_lib sp) w config g).2.1
    = [ {| cmd := argv; inherit := false; run_env := e |} ]
  ∧ (∀ l, tokens (StringList l) = l)
  ∧ (∀ s, Forall (λ t, truthy_string t = true ∧ no_space t = true)
                 (tokens (OneString s))
          ∧ glue (tokens (OneString s)) = strip_ws s)
  ∧ (r = OneString "echo hello" → args script = None → args g = None →
     argv = "echo" :: "hello" :: rest).
Proof.
  intros Hargs Hname Hget Hf Hr Ht He argv.
  split; [|split; [done|split]].
  - rewrite (Scripts_found _ w config g name rest script) by done.
    cbn [snd].
    rewrite (Scripts_run_command _ w script _ rest r e) by auto.
    cbn [fst]. rewrite !runs_app, runs_banner, runs_debug_line.
    by rewrite run_cmd_default.
  - intros s. split; [by apply split_ws_tokens|apply split_ws_glue].
  - intros -> Hs Hg. subst argv. by rewrite Hs, Hg.
Qed.

Lemma C5_echo_hello_witness :
  let w := world ["hi"; "there"; "you"] [] ∅ (exited 0) [] in
  let script := ScriptRun (OneString "echo hello") in
  let argv := ["echo"; "hello"; "there"; "you"] in
  runs (Scripts deno_lib w {[ "hi" := script ]} emptyGlobalConfig).2.1
    = [ {| cmd := argv; inherit := false; run_env := None |} ]
  ∧ (∀ l, tokens (StringList l) = l)
  ∧ (∀ s, Forall (λ t, truthy_string t = true ∧ no_space t = true)
                 (tokens (OneString s))
          ∧ glue (tokens (OneString s)) = strip_ws s)
  ∧ (OneString "echo hello" = OneString "echo hello" →
     args script = None → args emptyGlobalConfig = None →
     argv = "echo" :: "hello" :: ["there"; "you"]).
Proof.
  intros w script argv.
  exact (C5_command_argv deno_flags w {[ "hi" := script ]} emptyGlobalConfig
           "hi" ["there"; "you"] script (OneString "echo hello") None
           eq_refl ltac:(discriminate) eq_refl eq_refl eq_refl eq_refl
           eq_refl).
Defined.

(** C6.  For a file script that exists and is run once (watch mode off),
    the call starts exactly one child, whose argument vector is, in this
    order: "deno", "run", the permission flags, the tsconfig flag, the extra
    interpreter arguments, the import-map flag, the unstable flag, the file
    path, the script's arguments, the rest arguments.  Each group of flags is
    the value of one helper at the script-level and global-level values of
    its field (the global value alone for the import map and the unstable
    flag).  The helpers as the specification describes them emit no token
    when these values are unset. *)
Theorem C6_file_argv
    (lib : Lib) (w : World) (config : gmap string Script) (g : GlobalConfig)
    (name f : string) (rest : list string) (script : Script)
    (e : option (gmap string string)) :
  Deno_args w = name :: rest →
  name ≠ EmptyString →
  config !! name = Some script →
  file script = Some f → f ≠ EmptyString → fs_exists w f = true →
  watchModeEnabled script g = false →
  Scripts_env lib w script (defaultCommonArgs w script g).2 = mret e →
  runs (Scripts lib w config g).2.1
    = [ {| cmd := ["deno"; "run"]
                    ++ argifyPermissions lib (permissions script)
                         (permissions g)
                    ++ argifyTsconfig lib (tsconfig script) (tsconfig g)
                    ++ argifyArgs lib (denoArgs script) (denoArgs g)
                    ++ argifyImportMap lib (importMap g)
                    ++ argifyUnstable lib (unstable g)
                    ++ [f]
                    ++ argifyArgs lib (args script) (args g)
                    ++ rest;
           inherit := true; run_env := e |} ]
  ∧ ∀ sp, argifyPermissions (spec_lib sp) None None = []
          ∧ argifyTsconfig (spec_lib sp) None None = []
          ∧ argifyArgs (spec_lib sp) None None = []
          ∧ argifyImportMap (spec_lib sp) None = []
          ∧ argifyUnstable (spec_lib sp) None = [].
Proof.
  intros Hargs Hname Hget Hf Hne Hex Hw He. split; [|done].
  rewrite (Scripts_found lib w config g name rest script) by done.
  cbn [snd].
  rewrite (Scripts_run_file_once lib w script _ rest f e)
    by (by rewrite ?watchModeEnabled_default).
  cbn [fst]. rewrite runs_app, runs_debug_line.
  by rewrite file_cmd_default.
Qed.

Lemma C6_log_argv_witness :
  let w := world ["log"; "extra"] ["./log.ts"; ".env"] {[ "MODE" := "prod" ]}
             (exited 0) [] in
  runs (Scripts deno_lib w {[ "log" := log_script ]} log_global).2.1
    = [ {| cmd := ["deno"; "run"; "--allow-all"; "--config"; "tsconfig.json";
                   "--quiet"; "--importmap"; "map.json"; "--unstable";
                   "./log.ts"; "-v"; "in.txt"; "extra"];
           inherit := true;
           run_env := Some {[ "PORT" := "80"; "MODE" := "dev" ]} |} ]
  ∧ ∀ sp, argifyPermissions (spec_lib sp) None None = []
          ∧ argifyTsconfig (spec_lib sp) None None = []
          ∧ argifyArgs (spec_lib sp) None None = []
          ∧ argifyImportMap (spec_lib sp) None = []
          ∧ argifyUnstable (spec_lib sp) None = [].
Proof.
  intros w.
  exact (C6_file_argv deno_lib w {[ "log" := log_script ]} log_global
           "log" "./log.ts" ["extra"] log_script
           (Some {[ "PORT" := "80"; "MODE" := "dev" ]})
           eq_refl ltac:(discriminate) eq_refl eq_refl ltac:(discriminate)
           eq_refl eq_refl ltac:(vm_compute; reflexivity)).
Defined.

(** ** C3: what the call writes to its arguments *)

(** C3 as stated fails: called with a global configuration without
    [envFile] in a directory that holds a file [.env], [Scripts] leaves the
    object [globalConfig] changed. *)
Lemma C3_globalConfig_is_written :
  let w := world ["echo"] [".env"] ∅ (exited 0) [] in
  (Scripts deno_lib w test_config emptyGlobalConfig).1.2 ≠ emptyGlobalConfig
  ∧ envFile (Scripts deno_lib w test_config emptyGlobalConfig).1.2
    = Some (JBool true).
Proof.
  split; [|done]. intros H.
  by apply (f_equal (λ x : GlobalConfig, envFile x)) in H.
Qed.

(** C3 (amended).  A call of [Scripts] leaves the declaration mapping and
    the script objects in it as they were.  The object [globalConfig] is
    either left as it was, or, when it has no [envFile] and a file [.env]
    exists, differs from what it was in the property [envFile] alone, which
    has become [true].  What [defaultCommonArgs] does depends on the outside
    world through the existence of [.env] only. *)
Theorem C3_only_global_envFile_is_written
    (lib : Lib) (w : World) (config : gmap string Script) (g : GlobalConfig) :
  let after := (Scripts lib w config g).1 in
  after.1 = config
  ∧ (after.2 = g
     ∨ (envFile g = None ∧ fs_exists w ".env" = true
        ∧ after.2 = set_envFile g (JBool true)))
  ∧ (env after.2 = env g ∧ args after.2 = args g ∧ watch after.2 = watch g
     ∧ permissions after.2 = permissions g ∧ tsconfig after.2 = tsconfig g
     ∧ denoArgs after.2 = denoArgs g ∧ debug after.2 = debug g
     ∧ importMap after.2 = importMap g ∧ unstable after.2 = unstable g)
  ∧ ∀ w' script, fs_exists w' ".env" = fs_exists w ".env" →
                 defaultCommonArgs w' script g = defaultCommonArgs w script g.
Proof.
  intros after. subst after. split; [|split; [|split]].
  - by destruct (Scripts_cases lib w config g)
      as [[msg ->]|(script & rest & ->)].
  - destruct (Scripts_cases lib w config g)
      as [[msg ->]|(script & rest & ->)]; cbn [fst snd]; [by left|].
    unfold defaultCommonArgs.
    destruct (envFile g) eqn:Hg; [by left|].
    destruct (fs_exists w ".env") eqn:Hex; [by right|by left].
  - destruct (Scripts_cases lib w config g)
      as [[msg ->]|(script & rest & ->)]; cbn [fst snd]; [done|].
    apply defaultCommonArgs_frame.
  - intros w' script Hw'. unfold defaultCommonArgs. by rewrite Hw'.
Qed.

Lemma C3_frame_witness :
  let w := world ["echo"] [".env"] ∅ (exited 0) [] in
  let w' := world ["log"] [".env"; "./log.ts"] ∅ killed one_change in
  defaultCommonArgs w' log_script log_global
  = defaultCommonArgs w log_script log_global.
Proof.
  intros w w'.
  exact (proj2 (proj2 (proj2
           (C3_only_global_envFile_is_written deno_lib w test_config
              log_global)))
           w' log_script eq_refl).
Defined.

(** ** C4: the environment of the child *)

Lemma lookup_union_nullish {A} (a b : gmap string A) (k : string) :
  (a ∪ b) !! k = a !! k ?? b !! k.
Proof. rewrite lookup_union. by destruct (a !! k), (b !! k). Qed.

(** Key by key, an overlay takes the key of the object when it has it. *)
Lemma lookup_env_overlay (lib : Lib) (o : option (gmap string Scalar))
    (e : option (gmap string string)) (k : string) :
  lookup_in (env_overlay lib o e) k
  = lookup_in (loadEnvFromObject lib <$> o) k ?? lookup_in e k.
Proof.
  destruct o as [o|]; [|done].
  simpl. rewrite lookup_union_nullish.
  destruct e; [done|]. simpl. by rewrite lookup_empty.
Qed.

(** C4.  Let the [envFile] in force be the script-level value, else the
    global-level value, the latter after the default for an existing [.env]
    was applied.  When it is falsy and neither level has an [env], the
    environment handed to the child is [undefined].  Otherwise, provided the
    environment file can be loaded, it is a mapping in which each key has
    the value of the script [env] if the key is there, else that of the
    global [env] if the key is there, else that of the loaded file (no file
    being loaded when the [envFile] in force is falsy).  When neither level
    sets [envFile], the [envFile] in force is [true] if a file [.env] exists
    and undefined if not. *)
Theorem C4_buildEnv
    (lib : Lib) (w : World) (script : Script) (g0 : GlobalConfig) :
  let g := (defaultCommonArgs w script g0).2 in
  let ef := Scripts_envFile script g in
  let S := loadEnvFromObject lib <$> env script in
  let G := loadEnvFromObject lib <$> env g0 in
  (envFile_in_force ef = false → env g0 = None → env script = None →
   Scripts_env lib w script g = mret None)
  ∧ (envFile_in_force ef = false →
     is_Some (env g0) ∨ is_Some (env script) →
     ∃ m, Scripts_env lib w script g = mret (Some m)
          ∧ ∀ k, m !! k = lookup_in S k ?? lookup_in G k)
  ∧ (∀ v F, ef = Some v → truthy_bos v = true →
            loadEnvFromFile w (envFile_path v) = Some F →
            ∃ m, Scripts_env lib w script g = mret (Some m)
                 ∧ ∀ k, m !! k = lookup_in S k ?? lookup_in G k ?? F !! k)
  ∧ (envFile script = None → envFile g0 = None →
     ef = if fs_exists w ".env" then Some (JBool true) else None).
Proof.
  intros g ef S G.
  assert (Hg : env g = env g0)
    by (by destruct (defaultCommonArgs_frame w script g0) as (H & _)).
  assert (Hoff : envFile_in_force ef = false →
                 Scripts_env_file w script g = mret None).
  { unfold Scripts_env_file. fold ef. destruct ef as [v|]; [|done].
    simpl. by intros ->. }
  assert (Hkey : ∀ e k,
    lookup_in (env_overlay lib (env script) (env_overlay lib (env g) e)) k
    = lookup_in S k ?? lookup_in G k ?? lookup_in e k).
  { intros e k. rewrite !lookup_env_overlay, Hg. subst S G.
    by destruct (lookup_in (loadEnvFromObject lib <$> env script) k). }
  split; [|split; [|split]].
  - intros Hef HG HS. unfold Scripts_env.
    by rewrite (Hoff Hef), bind_ret, Hg, HG, HS.
  - intros Hef Hsome. unfold Scripts_env. rewrite (Hoff Hef), bind_ret.
    destruct (env_overlay lib (env script) (env_overlay lib (env g) None))
      as [m|] eqn:Hm.
    + exists m. split; [done|]. intros k.
      pose proof (Hkey None k) as Hk. rewrite Hm in Hk. simpl in Hk.
      rewrite Hk. by destruct (lookup_in S k), (lookup_in G k).
    + exfalso. rewrite Hg in Hm.
      destruct Hsome as [[o Ho]|[o Ho]]; rewrite Ho in Hm;
        by destruct (env script), (env g0).
  - intros v F Hv Ht HF. unfold Scripts_env, Scripts_env_file. fold ef.
    rewrite Hv, Ht, HF, bind_ret.
    destruct (env_overlay lib (env script)
                (env_overlay lib (env g) (Some F))) as [m|] eqn:Hm.
    + exists m. split; [done|]. intros k.
      pose proof (Hkey (Some F) k) as Hk. by rewrite Hm in Hk.
    + by destruct (env script), (env g).
  - intros Hs Hg0. subst ef g. unfold Scripts_envFile.
    by rewrite defaultCommonArgs_envFile, Hs, Hg0.
Qed.

Lemma C4_layers_witness :
  let w := world ["log"] ["./log.ts"; ".env"]
             {[ "MODE" := "prod"; "HOME" := "/root" ]} (exited 0) [] in
  ∃ m, Scripts_env deno_lib w log_script
         (defaultCommonArgs w log_script log_global).2 = mret (Some m)
       ∧ ∀ k, m !! k
              = lookup_in (loadEnvFromObject deno_lib <$> env log_script) k
                ?? lookup_in (loadEnvFromObject deno_lib <$> env log_global) k
                ?? ({[ "MODE" := "prod"; "HOME" := "/root" ]}
                      : gmap string string) !! k.
Proof.
  intros w.
  exact (proj1 (proj2 (proj2 (C4_buildEnv deno_lib w log_script log_global)))
           (JBool true) {[ "MODE" := "prod"; "HOME" := "/root" ]}
           eq_refl eq_refl eq_refl).
Defined.

(** ** C2: precedence of the script-level over the global-level value *)

Lemma lookup_in_fmap {A B} (f : A → B) (o : option (gmap string A))
    (k : string) :
  lookup_in (fmap (M := gmap string) f <$> o) k = f <$> lookup_in o k.
Proof. destruct o as [m|]; [|done]. simpl. apply lookup_fmap. Qed.

(** C2 as stated fails for [watch]: with [watch: true] on the script and
    an options object as the global [watch], the options in force are not
    those of the script-level value, which has none, but those of the global
    object, and the watcher watches the global paths. *)
Lemma C2_boolean_watch_keeps_global_options :
  let script := with_watch (ScriptFile "./log.ts") (WatchBool true) in
  let g := with_global_watch emptyGlobalConfig
             (WatchObject (watch_paths (Some ["src"]))) in
  let w := world ["log"] ["./log.ts"] ∅ (exited 0) [] in
  stated_watch (watch script) (watch g) = Some (WatchBool true)
  ∧ watchOptions script (defaultCommonArgs w script g).2
    ≠ watch_object (stated_watch (watch script) (watch g))
  ∧ watchers (Scripts deno_lib w {[ "log" := script ]} g).2.1
    = [(["./log.ts"; "src"], watcher_config (watch_paths (Some ["src"])))].
Proof.
  split; [done|]. split; [|done].
  intros H. by apply (f_equal paths) in H.
Qed.

(** C2 (amended).  With the helpers as the specification describes them,
    and [g0] the global configuration passed in:
    - the [envFile] in force is the script-level value, else the
      global-level value, else [true] when a file [.env] exists and
      undefined otherwise;
    - watch mode is on when the script-level [watch], else the global-level
      [watch], is truthy, which is also the truthiness of the value the
      specification describes;
    - in the composed commands the permissions, the tsconfig, [denoArgs] and
      [args] each contribute the tokens of the script-level value, else of
      the global-level value, else nothing;
    - each key of the environment has the value of the script [env] if the
      key is there, else that of the global [env] if the key is there, else
      that of what was there before (the loaded file);
    - the watch options are made of the values of [watch] that are objects:
      the key-wise union with script keys winning when both are, the one
      that is an object when only one is (so a script-level boolean leaves
      the options of a global-level object in force), and no option when
      neither is. *)
Theorem C2_field_precedence
    (sp : FlagSpelling) (w : World) (script : Script) (g0 : GlobalConfig) :
  let lib := spec_lib sp in
  let g := (defaultCommonArgs w script g0).2 in
  Scripts_envFile script g
    = envFile script ?? envFile g0
        ?? (if fs_exists w ".env" then Some (JBool true) else None)
  ∧ (watchModeEnabled script g
     = from_option truthy_watch false (watch script ?? watch g0)
     ∧ watchModeEnabled script g
       = from_option truthy_watch false
           (stated_watch (watch script) (watch g0)))
  ∧ (∀ f rest,
       file_cmd lib script g f rest
       = ["deno"; "run"]
           ++ from_option (permission_flags sp) []
                (permissions script ?? permissions g0)
           ++ from_option (tsconfig_flag sp) []
                (tsconfig script ?? tsconfig g0)
           ++ from_option tokens [] (denoArgs script ?? denoArgs g0)
           ++ from_option (importMap_flag sp) [] (importMap g0)
           ++ from_option (unstable_flag sp) [] (unstable g0)
           ++ [f]
           ++ from_option tokens [] (args script ?? args g0)
           ++ rest)
  ∧ (∀ r rest,
       run_cmd lib script g r rest
       = tokens r ++ from_option tokens [] (args script ?? args g0) ++ rest)
  ∧ (∀ e0 k,
       lookup_in (env_overlay lib (env script) (env_overlay lib (env g) e0)) k
       = (scalar_to_string <$> lookup_in (env script) k)
           ?? (scalar_to_string <$> lookup_in (env g0) k)
           ?? lookup_in e0 k)
  ∧ watchOptions script g
    = match watch script, watch g0 with
      | Some (WatchObject so), Some (WatchObject go) => keywise_union go so
      | Some (WatchObject so), _ => so
      | _, Some (WatchObject go) => go
      | _, _ => {| paths := Absent; match_ := Absent; skip := Absent;
                   extensions := Absent; interval := Absent;
                   recursive := Absent |}
      end.
Proof.
  intros lib g.
  destruct (defaultCommonArgs_frame w script g0)
    as (Henv & Hargs & Hwatch & Hperm & Hts & Hdeno & _ & Himp & Hun).
  fold g in Henv, Hargs, Hwatch, Hperm, Hts, Hdeno, Himp, Hun.
  split; [|split; [|split; [|split; [|split]]]].
  - unfold Scripts_envFile. subst g. rewrite defaultCommonArgs_envFile.
    by destruct (envFile script), (envFile g0).
  - unfold watchModeEnabled. rewrite Hwatch. split.
    + by destruct (watch script ?? watch g0).
    + by destruct (watch script) as [[b|so]|], (watch g0) as [[b'|go]|].
  - intros f rest. unfold file_cmd, lib. cbn [spec_lib argifyPermissions
      argifyTsconfig argifyArgs argifyImportMap argifyUnstable].
    rewrite Hperm, Hts, Hdeno, Himp, Hun, Hargs. unfold emit_flag.
    by destruct (permissions script ?? permissions g0),
      (tsconfig script ?? tsconfig g0), (denoArgs script ?? denoArgs g0),
      (args script ?? args g0), (importMap g0), (unstable g0).
  - intros r rest. unfold run_cmd, lib. cbn [spec_lib toArgsStringList
      argifyArgs]. rewrite Hargs. unfold emit_flag.
    by destruct (args script ?? args g0).
  - intros e0 k. rewrite !lookup_env_overlay, Henv.
    unfold lib. cbn [spec_lib loadEnvFromObject].
    rewrite !lookup_in_fmap.
    by destruct (scalar_to_string <$> lookup_in (env script) k).
  - unfold watchOptions. rewrite Hwatch.
    destruct (watch script) as [[b|so]|], (watch g0) as [[b'|go]|];
      first [ done
            | by destruct so as [[] [] [] [] [] []]
            | by destruct go ].
Qed.

(** * Further properties *)

(** ** The command line entry point *)

Lemma lower_ascii_i (c : ascii) :
  lower_ascii c = "i"%char → c = "i"%char ∨ c = "I"%char.
Proof.
  destruct c as [[] [] [] [] [] [] [] []]; vm_compute; intros H;
    first [discriminate H | by left | by right].
Qed.

Lemma lower_ascii_n (c : ascii) :
  lower_ascii c = "n"%char → c = "n"%char ∨ c = "N"%char.
Proof.
  destruct c as [[] [] [] [] [] [] [] []]; vm_compute; intros H;
    first [discriminate H | by left | by right].
Qed.

Lemma lower_ascii_t (c : ascii) :
  lower_ascii c = "t"%char → c = "t"%char ∨ c = "T"%char.
Proof.
  destruct c as [[] [] [] [] [] [] [] []]; vm_compute; intros H;
    first [discriminate H | by left | by right].
Qed.

Lemma is_init_sound (cmd : string) :
  is_init cmd = true → cmd ∈ init_spellings.
Proof.
  unfold is_init. intros H%String.eqb_eq.
  destruct cmd as [|a [|b [|c [|d [|e rest]]]]]; try discriminate H.
  cbn [toLowerCase] in H. injection H as Ha Hb Hc Hd.
  apply lower_ascii_i in Ha, Hc. apply lower_ascii_n in Hb.
  apply lower_ascii_t in Hd.
  destruct Ha as [-> | ->], Hb as [-> | ->], Hc as [-> | ->],
    Hd as [-> | ->]; vm_compute;
    repeat first [apply list_elem_of_here | apply list_elem_of_further].
Qed.

Lemma is_init_complete (cmd : string) :
  cmd ∈ init_spellings → is_init cmd = true.
Proof.
  intros H%list_elem_of_In. vm_compute in H.
  repeat destruct H as [<- | H]; first [reflexivity | destruct H].
Qed.

(** X1.  The bootstrap command is recognised in any letter case and in no
    other spelling: the first argument selects the branch [init] exactly
    when it is one of the sixteen ways of writing "init" in upper and lower
    case. *)
Theorem X1_init_in_any_letter_case (cmd : string) :
  is_init cmd = true ↔ cmd ∈ init_spellings.
Proof. split; [apply is_init_sound | apply is_init_complete]. Qed.

Lemma is_init_false (cmd : string) :
  cmd ∉ init_spellings → is_init cmd = false.
Proof.
  intros H. destruct (is_init cmd) eqn:E; [|done].
  by apply is_init_sound in E.
Qed.

(** X2.  When the first argument is a spelling of "init", [cli.ts] never
    runs [./scripts.ts]: it starts either no child or [deno cache
    ./scripts.ts] followed by [deno fmt -q ./scripts.ts], whatever the
    other arguments, and returns normally.  A script declared under such a
    name cannot be reached through the command line. *)
Theorem X2_init_never_runs_scripts
    (w : World) :
  hd EmptyString (Deno_args w) ∈ init_spellings →
  (cli w).2 = inr tt
  ∧ (fs_exists w "./scripts.ts" = true → cli_runs (cli w).1 = [])
  ∧ (fs_exists w "./scripts.ts" = false →
     cli_runs (cli w).1
     = [plain_run ["deno"; "cache"; "./scripts.ts"];
        plain_run ["deno"; "fmt"; "-q"; "./scripts.ts"]]).
Proof.
  intros H%is_init_complete. unfold cli. rewrite H.
  by destruct (fs_exists w "./scripts.ts").
Qed.

Lemma X2_init_witness :
  let w := world ["InIt"; "echo"] [] ∅ killed [] in
  (cli w).2 = inr tt
  ∧ (fs_exists w "./scripts.ts" = true → cli_runs (cli w).1 = [])
  ∧ (fs_exists w "./scripts.ts" = false →
     cli_runs (cli w).1
     = [plain_run ["deno"; "cache"; "./scripts.ts"];
        plain_run ["deno"; "fmt"; "-q"; "./scripts.ts"]]).
Proof.
  intros w. apply (X2_init_never_runs_scripts w).
  vm_compute. repeat first [apply list_elem_of_here | apply list_elem_of_further].
Defined.

(** X3.  [cli.ts] never overwrites a file: whatever it writes is the
    template, written to [./scripts.ts], in a run whose first argument is a
    spelling of "init" and which found no [./scripts.ts]. *)
Theorem X3_only_a_missing_scripts_file_is_written
    (w : World) (p c : string) :
  (p, c) ∈ writes (cli w).1 →
  p = "./scripts.ts" ∧ c = scripts_template
  ∧ fs_exists w "./scripts.ts" = false
  ∧ hd EmptyString (Deno_args w) ∈ init_spellings.
Proof.
  unfold cli. destruct (is_init _) eqn:Hi.
  - apply is_init_sound in Hi.
    destruct (fs_exists w "./scripts.ts") eqn:Hex; cbn [fst writes omap].
    + by intros ?%elem_of_nil.
    + by intros [= -> ->]%list_elem_of_singleton.
  - cbn [fst]. unfold readScriptsFile.
    destruct (fs_exists w "./scripts.ts"); by intros ?%elem_of_nil.
Qed.

Lemma X3_write_witness :
  let w := world ["init"] [] ∅ (exited 0) [] in
  ("./scripts.ts" : string) = "./scripts.ts"
  ∧ scripts_template = scripts_template
  ∧ fs_exists w "./scripts.ts" = false
  ∧ hd EmptyString (Deno_args w) ∈ init_spellings.
Proof.
  intros w.
  apply (X3_only_a_missing_scripts_file_is_written w "./scripts.ts"
           scripts_template).
  vm_compute. apply list_elem_of_here.
Defined.

(** X4.  When the first argument is not a spelling of "init" (or there is
    no argument), [cli.ts] hands all its arguments, in order and unchanged,
    to [deno run -A ./scripts.ts]: this one child is all it starts.  When
    [./scripts.ts] does not exist it starts nothing and fails with
    "scripts.ts file not found!". *)
Theorem X4_arguments_are_passed_through
    (w : World) :
  hd EmptyString (Deno_args w) ∉ init_spellings →
  (fs_exists w "./scripts.ts" = true →
   cli w = ([Core (DenoRun (plain_run (["deno"; "run"; "-A"; "./scripts.ts"]
                                         ++ Deno_args w)))],
            inr tt))
  ∧ (fs_exists w "./scripts.ts" = false →
     cli w = ([], inl (Fatal "scripts.ts file not found!"))).
Proof.
  intros H%is_init_false. unfold cli, readScriptsFile. rewrite H.
  split; by intros ->.
Qed.

Lemma X4_passthrough_witness :
  let w := world ["echo"; "--flag"; "init"] ["./scripts.ts"] ∅ (exited 1) [] in
  (fs_exists w "./scripts.ts" = true →
   cli w = ([Core (DenoRun (plain_run ["deno"; "run"; "-A"; "./scripts.ts";
                                       "echo"; "--flag"; "init"]))],
            inr tt))
  ∧ (fs_exists w "./scripts.ts" = false →
     cli w = ([], inl (Fatal "scripts.ts file not found!"))).
Proof.
  intros w. apply (X4_arguments_are_passed_through w).
  intros H%is_init_complete. discriminate H.
Defined.

(** X5.  [cli.ts] never ends with the exit code of a child: whenever it has
    started one, it returns normally, whatever the status of the child. *)
Theorem X5_child_status_is_dropped
    (w : World) :
  cli_runs (cli w).1 ≠ [] → (cli w).2 = inr tt.
Proof.
  unfold cli. destruct (is_init _).
  - by destruct (fs_exists w "./scripts.ts").
  - unfold readScriptsFile. by destruct (fs_exists w "./scripts.ts").
Qed.

Lemma X5_failed_child_witness :
  (cli (world ["echo"] ["./scripts.ts"] ∅ (exited 1) [])).2 = inr tt.
Proof.
  apply (X5_child_status_is_dropped
           (world ["echo"] ["./scripts.ts"] ∅ (exited 1) [])).
  discriminate.
Defined.

(** ** More on [Scripts] and [defaultCommonArgs] *)

Lemma defaultCommonArgs_idem (w : World) (script : Script) (g : GlobalConfig) :
  defaultCommonArgs w script (defaultCommonArgs w script g).2
  = (script, (defaultCommonArgs w script g).2).
Proof.
  pose proof (defaultCommonArgs_envFile w script g) as H.
  set (g' := (defaultCommonArgs w script g).2) in *.
  unfold defaultCommonArgs. rewrite H.
  destruct (envFile g); [done|].
  by destruct (fs_exists w ".env").
Qed.

Lemma get_script_write_back (config : gmap string Script) (key : string)
    (script : Script) :
  get_script config key = Some script →
  write_back config key script = config.
Proof.
  unfold get_script. intros H. apply write_back_same.
  destruct (config !! key) as [s|]; [right|by left]. congruence.
Qed.

(** X6.  Calling [Scripts] again with the objects as the first call left
    them, in the same surroundings, gives the same run and leaves the
    objects as they are: the only write of a call, setting [envFile] of the
    global configuration to [true], is not repeated and changes nothing the
    next call does. *)
Theorem X6_second_call_is_the_same
    (lib : Lib) (w : World) (config : gmap string Script) (g : GlobalConfig) :
  let first := Scripts lib w config g in
  Scripts lib w first.1.1 first.1.2 = first.
Proof.
  intros first. subst first. unfold Scripts.
  destruct (Deno_args w) as [|[|c name] rest]; [done|done|].
  destruct (get_script config (String c name)) as [script|] eqn:Hget;
    cbn [fst snd]; [|by rewrite Hget].
  pose proof (defaultCommonArgs_local w script g) as Hl.
  pose proof (defaultCommonArgs_idem w script g) as Hi.
  destruct (defaultCommonArgs w script g) as [s' g']. cbn [fst snd] in *.
  subst s'. rewrite (get_script_write_back config _ script Hget), Hget, Hi.
  by rewrite (get_script_write_back config _ script Hget).
Qed.

(** X7.  A falsy script-level [envFile] ([false] or the empty string)
    switches the environment file off for the script: whatever the global
    [envFile], whether a file [.env] exists and whether files can be read,
    nothing is loaded, the step does not reject, and the environment is
    made of the two [env] objects alone. *)
Theorem X7_script_envFile_false_opts_out
    (lib : Lib) (w : World) (script : Script) (g : GlobalConfig)
    (v : BoolOrString) :
  envFile script = Some v → truthy_bos v = false →
  Scripts_env lib w script (defaultCommonArgs w script g).2
  = mret (env_overlay lib (env script) (env_overlay lib (env g) None)).
Proof.
  intros Hv Hf. unfold Scripts_env, Scripts_env_file, Scripts_envFile.
  rewrite Hv. cbn [nullish]. rewrite Hf, bind_ret.
  by destruct (defaultCommonArgs_frame w script g) as (-> & _).
Qed.

Lemma X7_opt_out_witness :
  let script := with_envFile log_script (JBool false) in
  let g := set_envFile log_global (JString "prod.env") in
  let w := world ["log"] [".env"] ∅ (exited 0) [] in
  Scripts_env deno_lib w script (defaultCommonArgs w script g).2
  = mret (env_overlay deno_lib (env script)
            (env_overlay deno_lib (env g) None)).
Proof.
  intros script g w.
  exact (X7_script_envFile_false_opts_out deno_lib w script g (JBool false)
           eq_refl eq_refl).
Defined.

(** X8.  The environment file is loaded before anything else is done for
    the selected script: when the [envFile] in force is truthy and the file
    cannot be loaded, the call stops on the rejection with an empty trace.
    No line is logged, the target file is not looked for, no fatal message
    is produced, and neither a child nor a watcher is started. *)
Theorem X8_unreadable_envFile_stops_first
    (lib : Lib) (w : World) (config : gmap string Script) (g : GlobalConfig)
    (name : string) (rest : list string) (script : Script)
    (v : BoolOrString) :
  Deno_args w = name :: rest →
  name ≠ EmptyString →
  config !! name = Some script →
  Scripts_envFile script (defaultCommonArgs w script g).2 = Some v →
  truthy_bos v = true →
  loadEnvFromFile w (envFile_path v) = None →
  (Scripts lib w config g).2 = ([], inl Rejected).
Proof.
  intros Hargs Hname Hget Hv Ht Hload.
  rewrite (Scripts_found lib w config g name rest script) by done.
  cbn [snd]. apply Scripts_run_rejected.
  unfold Scripts_env, Scripts_env_file. by rewrite Hv, Ht, Hload.
Qed.

Lemma X8_missing_envFile_witness :
  let script := with_envFile (ScriptFile "./nowhere.ts")
                  (JString "missing.env") in
  let w := world ["job"] [".env"] ∅ (exited 0) [] in
  (Scripts deno_lib w {[ "job" := script ]}
     (with_global_watch emptyGlobalConfig (WatchBool true))).2
  = ([], inl Rejected).
Proof.
  intros script w.
  exact (X8_unreadable_envFile_stops_first deno_lib w {[ "job" := script ]}
           (with_global_watch emptyGlobalConfig (WatchBool true))
           "job" [] script (JString "missing.env")
           eq_refl ltac:(discriminate) eq_refl eq_refl eq_refl eq_refl).
Defined.

(** X9.  When a script has a non-empty [file], its [run] is never looked
    at: the statements run exactly as for the same script without [run]. *)
Theorem X9_file_wins_over_run
    (lib : Lib) (w : World) (script : Script) (g : GlobalConfig)
    (rest : list string) (f : string) :
  file script = Some f → f ≠ EmptyString →
  Scripts_run lib w script g rest
  = Scripts_run lib w (without_run script) g rest.
Proof.
  intros Hf Hne. unfold Scripts_run.
  change (Scripts_env lib w (without_run script) g)
    with (Scripts_env lib w script g).
  change (file (without_run script)) with (file script).
  rewrite Hf. by destruct f.
Qed.

Lemma X9_both_set_witness :
  let script := {| file := Some "./log.ts";
                   run := Some (OneString "echo hello");
                   script_config := noDenoConfig |} in
  let w := world ["log"] ["./log.ts"] ∅ (exited 0) [] in
  Scripts_run deno_lib w script emptyGlobalConfig []
  = Scripts_run deno_lib w (without_run script) emptyGlobalConfig [].
Proof.
  intros script w.
  exact (X9_file_wins_over_run deno_lib w script emptyGlobalConfig []
           "./log.ts" eq_refl ltac:(discriminate)).
Defined.

(** X10.  A declared script that has nothing to execute, its [file] being
    absent or the empty string and its [run] being absent or the empty
    string, ends the call, once its environment is built, with the fatal
    message "Script not found!", after the line "Watch mode enabled." if
    watch is in force; neither a child nor a watcher is started. *)
Theorem X10_nothing_to_execute
    (lib : Lib) (w : World) (config : gmap string Script) (g : GlobalConfig)
    (name : string) (rest : list string) (script : Script)
    (e : option (gmap string string)) :
  Deno_args w = name :: rest →
  name ≠ EmptyString →
  config !! name = Some script →
  (file script = None ∨ file script = Some EmptyString) →
  (run script = None ∨ run script = Some (OneString EmptyString)) →
  Scripts_env lib w script (defaultCommonArgs w script g).2 = mret e →
  let r := (Scripts lib w config g).2 in
  r = (banner script g, inl (Fatal "Script not found!"))
  ∧ runs r.1 = [] ∧ watchers r.1 = [].
Proof.
  intros Hargs Hname Hget Hf Hr He r. subst r.
  rewrite (Scripts_found lib w config g name rest script) by done.
  cbn [snd].
  rewrite (Scripts_run_no_target lib w script _ rest e);
    [|done|done|destruct Hr as [Hr|Hr]; [by left|right; by eexists]].
  rewrite banner_default. cbn [fst].
  by rewrite runs_banner, watchers_banner.
Qed.

Lemma X10_empty_run_witness :
  let script := with_watch (ScriptRun (OneString EmptyString))
                  (WatchBool true) in
  let w := world ["noop"] [] ∅ (exited 0) [] in
  let r := (Scripts deno_lib w {[ "noop" := script ]} emptyGlobalConfig).2 in
  r = ([Log "Watch mode enabled."], inl (Fatal "Script not found!"))
  ∧ runs r.1 = [] ∧ watchers r.1 = [].
Proof.
  intros script w.
  exact (X10_nothing_to_execute deno_lib w {[ "noop" := script ]}
           emptyGlobalConfig "noop" [] script None
           eq_refl ltac:(discriminate) eq_refl (or_introl eq_refl)
           (or_intror eq_refl) eq_refl).
Defined.

Lemma elem_of_banner (script : Script) (g : GlobalConfig) (e : Event) :
  e ∈ banner script g → e = Log "Watch mode enabled.".
Proof.
  unfold banner. destruct (watchModeEnabled script g).
  - by intros ->%list_elem_of_singleton.
  - by intros ?%elem_of_nil.
Qed.

Lemma elem_of_batch_trace (changes : list Change) (e : Event) :
  e ∈ batch_trace changes → (∃ m, e = Log m) ∨ (∃ m, e = Debug m).
Proof.
  unfold batch_trace. intros [-> | H]%elem_of_cons; [by eauto|].
  apply list_elem_of_fmap in H as (c & -> & _). by eauto.
Qed.

Lemma elem_of_watch_loop (batches : list (list Change)) (e : Event) :
  e ∈ batches ≫= batch_trace → (∃ m, e = Log m) ∨ (∃ m, e = Debug m).
Proof.
  intros (b & H & _)%list_elem_of_bind. by eapply elem_of_batch_trace.
Qed.

Lemma watchers_batch_trace (changes : list Change) :
  watchers (batch_trace changes) = [].
Proof.
  unfold batch_trace. simpl. induction changes as [|c cs IH]; [done|]. exact IH.
Qed.

Lemma watchers_watch_loop (batches : list (list Change)) :
  watchers (batches ≫= batch_trace) = [].
Proof.
  induction batches as [|b bs IH]; [done|].
  by rewrite bind_cons, watchers_app, watchers_batch_trace, IH.
Qed.

(** The debug line of a run of the body describes the child of that run. *)
Lemma Ending_debug (w : World) (script : Script) (g : GlobalConfig)
    (p : Prog unit) :
  Ending w script g p →
  (∀ line e, DebugCommand line e ∈ p.1 →
     debug g = Some true
     ∧ ∃ opts, runs p.1 = [opts] ∧ line = join_space (cmd opts)
               ∧ e = run_env opts)
  ∧ (∀ opts, opts ∈ runs p.1 → debug g = Some true →
       DebugCommand (join_space (cmd opts)) (run_env opts) ∈ p.1).
Proof.
  intros [|msg|ps c batches|o]; cbn [fst].
  - split; [by intros ? ? ?%elem_of_nil|by intros ? ?%elem_of_nil].
  - split; [by intros ? ? ?%elem_of_banner|].
    rewrite runs_banner. by intros ? ?%elem_of_nil.
  - split.
    + intros line e [?|[?|H]%elem_of_cons]%elem_of_cons; [done|done|].
      by apply elem_of_watch_loop in H as [[m ?]|[m ?]].
    + intros opts H. change (opts ∈ runs (batches ≫= batch_trace)) in H.
      rewrite runs_watch_loop in H. by apply elem_of_nil in H.
  - rewrite !runs_app, runs_banner, runs_debug_line. cbn [app runs omap].
    split.
    + intros line e [H|[H|H]%elem_of_app]%elem_of_app.
      * by apply elem_of_banner in H.
      * unfold debug_line in H. case_bool_decide as Hd.
        -- apply list_elem_of_singleton in H as [= -> ->]. by eauto.
        -- by apply elem_of_nil in H.
      * by apply list_elem_of_singleton in H.
    + intros opts ->%list_elem_of_singleton Hd.
      apply elem_of_app. right. apply elem_of_app. left.
      unfold debug_line. rewrite bool_decide_eq_true_2 by done.
      apply list_elem_of_here.
Qed.

(** X11.  The debug line carries what is run: every debug line for a
    command appears only when [debug] is [true] in the global
    configuration, and then the call starts exactly one child, whose
    argument vector joined by single spaces and whose environment are those
    of the line; conversely, with [debug] set, every child started has its
    line in the trace. *)
Theorem X11_debug_line_shows_the_child
    (lib : Lib) (w : World) (config : gmap string Script) (g : GlobalConfig) :
  let t := (Scripts lib w config g).2.1 in
  (∀ line e, DebugCommand line e ∈ t →
     debug g = Some true
     ∧ ∃ opts, runs t = [opts] ∧ line = join_space (cmd opts)
               ∧ e = run_env opts)
  ∧ (∀ opts, opts ∈ runs t → debug g = Some true →
       DebugCommand (join_space (cmd opts)) (run_env opts) ∈ t).
Proof.
  intros t. subst t.
  destruct (Scripts_cases lib w config g) as [[msg ->]|(script & rest & ->)];
    cbn [snd].
  - split; [by intros ? ? ?%elem_of_nil|by intros ? ?%elem_of_nil].
  - pose proof (Scripts_run_ending lib w script
                  (defaultCommonArgs w script g).2 rest) as HE.
    apply Ending_debug in HE.
    destruct (defaultCommonArgs_frame w script g)
      as (_ & _ & _ & _ & _ & _ & Hd & _).
    by rewrite Hd in HE.
Qed.

Lemma X11_debug_witness :
  let w := world ["log"; "x y"] ["./log.ts"] ∅ (exited 0) [] in
  let t := (Scripts deno_lib w {[ "log" := log_script ]}
              (with_debug emptyGlobalConfig)).2.1 in
  let opts := {| cmd := ["deno"; "run"; "--allow-all"; "./log.ts"; "-v";
                         "in.txt"; "x y"];
                 inherit := true; run_env := None |} in
  DebugCommand "deno run --allow-all ./log.ts -v in.txt x y" None ∈ t.
Proof.
  intros w t opts.
  apply (proj2 (X11_debug_line_shows_the_child deno_lib w
                  {[ "log" := log_script ]} (with_debug emptyGlobalConfig))
           opts).
  - vm_compute. apply list_elem_of_here.
  - reflexivity.
Defined.

Lemma watchers_watch_run (m : string) (ps : list string) (c : WatcherConfig)
    (batches : list (list Change)) :
  watchers (Log m :: NewWatcher ps c :: (batches ≫= batch_trace)) = [(ps, c)].
Proof.
  change (watchers (Log m :: NewWatcher ps c :: (batches ≫= batch_trace)))
    with ((ps, c) :: watchers (batches ≫= batch_trace)).
  by rewrite watchers_watch_loop.
Qed.

(** X12.  In watch mode exactly one watcher is created.  The first path it
    watches is the file of the script.  The other paths are those of the
    key [paths] of the script-level options object whenever that object has
    the key, even holding [undefined] (then there are none): the
    global-level paths are replaced, not added to.  Without a script-level
    object, or without the key in it, they are the global-level paths. *)
Theorem X12_watched_paths
    (lib : Lib) (w : World) (config : gmap string Script) (g : GlobalConfig)
    (name f : string) (rest : list string) (script : Script)
    (e : option (gmap string string)) :
  Deno_args w = name :: rest →
  name ≠ EmptyString →
  config !! name = Some script →
  file script = Some f → f ≠ EmptyString → fs_exists w f = true →
  watchModeEnabled script g = true →
  Scripts_env lib w script (defaultCommonArgs w script g).2 = mret e →
  let global_paths := default [] (read (paths (watch_object (watch g)))) in
  let others :=
    match watch script with
    | Some (WatchObject so) =>
        match paths so with
        | Held ps => default [] ps
        | Absent => global_paths
        end
    | _ => global_paths
    end in
  watchers (Scripts lib w config g).2.1
  = [(f :: others, watcher_config (watchOptions script g))].
Proof.
  intros Hargs Hname Hget Hf Hne Hex Hw He global_paths others.
  rewrite (Scripts_found lib w config g name rest script) by done.
  cbn [snd].
  rewrite (Scripts_run_file_watch lib w script _ rest f e)
    by (by rewrite ?watchModeEnabled_default).
  rewrite watchOptions_default. cbn [fst].
  rewrite watchers_watch_run. do 3 f_equal.
  subst others global_paths. unfold watchOptions, spread_watch. cbn [paths].
  destruct (watch script) as [[b|so]|]; [done| |done].
  cbn [watch_object]. by destruct (paths so).
Qed.

Lemma X12_paths_replaced_witness :
  let script := with_watch (ScriptFile "./log.ts")
                  (WatchObject (watch_paths (Some ["lib"]))) in
  let g := with_global_watch emptyGlobalConfig
             (WatchObject (watch_paths (Some ["src"; "test"]))) in
  let w := world ["log"] ["./log.ts"] ∅ (exited 0) [] in
  watchers (Scripts deno_lib w {[ "log" := script ]} g).2.1
  = [(["./log.ts"; "lib"], watcher_config (watchOptions script g))].
Proof.
  intros script g w.
  exact (X12_watched_paths deno_lib w {[ "log" := script ]} g "log"
           "./log.ts" [] script None
           eq_refl ltac:(discriminate) eq_refl eq_refl ltac:(discriminate)
           eq_refl eq_refl eq_refl).
Defined.

(** X13.  A script-level [watch: false] switches watch mode off for the
    script whatever the global configuration says: an existing file script
    is then run once, without the line "Watch mode enabled." and without a
    watcher, and the call ends with the code of the child's status. *)
Theorem X13_script_watch_false_wins
    (lib : Lib) (w : World) (config : gmap string Script) (g : GlobalConfig)
    (name f : string) (rest : list string) (script : Script)
    (e : option (gmap string string)) :
  Deno_args w = name :: rest →
  name ≠ EmptyString →
  config !! name = Some script →
  file script = Some f → f ≠ EmptyString → fs_exists w f = true →
  watch script = Some (WatchBool false) →
  Scripts_env lib w script (defaultCommonArgs w script g).2 = mret e →
  let opts := {| cmd := file_cmd lib script g f rest; inherit := true;
                 run_env := e |} in
  (Scripts lib w config g).2
  = (debug_line g opts ++ [DenoRun opts],
     inl (Exit (code (child_status w opts)))).
Proof.
  intros Hargs Hname Hget Hf Hne Hex Hw He opts.
  assert (Hoff : watchModeEnabled script g = false)
    by (unfold watchModeEnabled; by rewrite Hw).
  rewrite (Scripts_found lib w config g name rest script) by done.
  cbn [snd].
  rewrite (Scripts_run_file_once lib w script _ rest f e)
    by (by rewrite ?watchModeEnabled_default).
  by rewrite debug_line_default, file_cmd_default.
Qed.

Lemma X13_watch_off_witness :
  let script := with_watch (ScriptFile "./log.ts") (WatchBool false) in
  let g := with_global_watch emptyGlobalConfig
             (WatchObject (watch_paths (Some ["src"]))) in
  let w := world ["log"] ["./log.ts"] ∅ (exited 2) one_change in
  let opts := {| cmd := ["deno"; "run"; "./log.ts"]; inherit := true;
                 run_env := None |} in
  (Scripts deno_lib w {[ "log" := script ]} g).2
  = ([DenoRun opts], inl (Exit (Some 2%Z))).
Proof.
  intros script g w opts.
  exact (X13_script_watch_false_wins deno_lib w {[ "log" := script ]} g
           "log" "./log.ts" [] script None
           eq_refl ltac:(discriminate) eq_refl eq_refl ltac:(discriminate)
           eq_refl eq_refl eq_refl).
Defined.

(** X14.  When no script is selected, the name being missing or empty or
    the lookup finding nothing, the call is a fatal error and nothing else:
    the trace is empty and both objects are left as they were, so the
    [envFile] of the global configuration is not set even where a file
    [.env] exists.  The message contains the name.  In particular a script
    declared under the empty name can never be selected. *)
Theorem X14_failed_selection_touches_nothing
    (lib : Lib) (w : World) (config : gmap string Script) (g : GlobalConfig) :
  let name := hd EmptyString (Deno_args w) in
  name = EmptyString ∨ get_script config name = None →
  ∃ msg, Scripts lib w config g = ((config, g), ([], inl (Fatal msg)))
         ∧ includes msg name = true.
Proof.
  intros name H. subst name. unfold Scripts.
  destruct (Deno_args w) as [|[|c name] rest]; cbn [hd] in *.
  - by eexists.
  - by eexists.
  - destruct H as [H|H]; [done|]. rewrite H. eexists. split; [done|].
    apply (includes_append ("script " +:+ dquote) (String c name)
             (dquote +:+ " not found!")).
Qed.

Lemma X14_empty_name_witness :
  let w := world [EmptyString; "x"] [".env"] ∅ (exited 0) [] in
  let config : gmap string Script :=
    {[ EmptyString := ScriptRun (OneString "echo hello") ]} in
  ∃ msg, Scripts deno_lib w config emptyGlobalConfig
         = ((config, emptyGlobalConfig), ([], inl (Fatal msg)))
         ∧ includes msg EmptyString = true.
Proof.
  intros w config.
  exact (X14_failed_selection_touches_nothing deno_lib w config
           emptyGlobalConfig (or_introl eq_refl)).
Defined.

Lemma includes_inherited_name (name : string) :
  name ∈ Object_prototype_keys → includes "Script not found!" name = false.
Proof.
  intros H%list_elem_of_In. vm_compute in H.
  repeat destruct H as [<- | H]; first [reflexivity | destruct H].
Qed.

(** X15.  A name that is not declared but is a property of
    [Object.prototype] never starts anything: unless the environment file
    of the global configuration cannot be loaded, the call ends, after the
    line "Watch mode enabled." if the global configuration switches watch
    on, with the fatal message "Script not found!", which does not contain
    the name. *)
Theorem X15_inherited_names_run_nothing
    (lib : Lib) (w : World) (config : gmap string Script) (g : GlobalConfig)
    (name : string) (rest : list string) :
  Deno_args w = name :: rest →
  name ∈ Object_prototype_keys →
  config !! name = None →
  let r := (Scripts lib w config g).2 in
  (r = stop Rejected
   ∨ r = (banner inherited_value g, inl (Fatal "Script not found!")))
  ∧ runs r.1 = [] ∧ watchers r.1 = []
  ∧ includes "Script not found!" name = false.
Proof.
  intros Hargs Hin Hget r.
  assert (Hr : r = Scripts_run lib w inherited_value
                     (defaultCommonArgs w inherited_value g).2 rest).
  { subst r. unfold Scripts, get_script. rewrite Hargs, Hget.
    rewrite bool_decide_eq_true_2 by done.
    destruct name as [|c name].
    { apply list_elem_of_In in Hin. vm_compute in Hin.
      repeat destruct Hin as [Hin | Hin]; first [discriminate Hin | done]. }
    pose proof (defaultCommonArgs_local w inherited_value g) as Hl.
    destruct (defaultCommonArgs w inherited_value g) as [s' g'].
    cbn [fst snd] in *. by subst s'. }
  rewrite Hr. clear Hr r.
  set (g' := (defaultCommonArgs w inherited_value g).2).
  destruct (Scripts_env_cases lib w inherited_value g') as [Hrej|[e He]].
  - rewrite (Scripts_run_rejected _ _ _ _ _ Hrej).
    split; [by left|]. repeat split; [done..|].
    by apply includes_inherited_name.
  - rewrite (Scripts_run_no_target lib w inherited_value g' rest e)
      by (by auto).
    subst g'. rewrite banner_default. cbn [fst].
    rewrite runs_banner, watchers_banner.
    split; [by right|]. repeat split; [done..|].
    by apply includes_inherited_name.
Qed.

Lemma X15_constructor_witness :
  let w := world ["constructor"] [] ∅ (exited 0) [] in
  let g := with_global_watch emptyGlobalConfig (WatchBool true) in
  let r := (Scripts deno_lib w test_config g).2 in
  (r = stop Rejected
   ∨ r = ([Log "Watch mode enabled."], inl (Fatal "Script not found!")))
  ∧ runs r.1 = [] ∧ watchers r.1 = []
  ∧ includes "Script not found!" "constructor" = false.
Proof.
  intros w g.
  apply (X15_inherited_names_run_nothing deno_lib w test_config g
           "constructor" []); [reflexivity| |reflexivity].
  vm_compute. repeat first [apply list_elem_of_here | apply list_elem_of_further].
Defined.

Lemma Ending_effects (w : World) (script : Script) (g : GlobalConfig)
    (p : Prog unit) :
  Ending w script g p →
  (length (runs p.1) + length (watchers p.1) ≤ 1)%nat
  ∧ (∀ msg, p.2 = inl (Fatal msg) → runs p.1 = [] ∧ watchers p.1 = [])
  ∧ (p.2 = inl Rejected → p.1 = [])
  ∧ (p.2 = inr tt → runs p.1 = [] ∧ length (watchers p.1) = 1)
  ∧ (∀ c, p.2 = inl (Exit c) →
          watchers p.1 = []
          ∧ ∃ opts, runs p.1 = [opts] ∧ c = code (child_status w opts)).
Proof.
  intros [|msg|ps c batches|o]; cbn [fst snd].
  - repeat split; try done; try congruence; simpl; lia.
  - rewrite runs_banner, watchers_banner.
    repeat split; try done; try congruence; simpl; lia.
  - rewrite watchers_watch_run.
    change (runs (Log "Watch mode enabled." :: NewWatcher ps c
                    :: (batches ≫= batch_trace)))
      with (runs (batches ≫= batch_trace)).
    rewrite runs_watch_loop.
    repeat split; try done; try congruence; simpl; lia.
  - rewrite !runs_app, runs_banner, runs_debug_line.
    rewrite !watchers_app, watchers_banner, watchers_debug_line.
    split; [simpl; lia|]. split; [done|]. split; [done|]. split; [done|].
    intros c [= <-]. split; [done|]. by exists o.
Qed.

(** X16.  One call of [Scripts] starts at most one child or creates at most
    one watcher, never both.  A call that ends in a fatal error has started
    neither; a call that stops on the rejected environment file has done
    nothing at all; a call that returns normally has created its watcher
    and started no child; and a call that ends in [Deno.exit] has started
    exactly one child, created no watcher, and exits with the code of that
    child's status. *)
Theorem X16_child_and_watcher_exclude_each_other
    (lib : Lib) (w : World) (config : gmap string Script) (g : GlobalConfig) :
  let r := (Scripts lib w config g).2 in
  (length (runs r.1) + length (watchers r.1) ≤ 1)%nat
  ∧ (∀ msg, r.2 = inl (Fatal msg) → runs r.1 = [] ∧ watchers r.1 = [])
  ∧ (r.2 = inl Rejected → r.1 = [])
  ∧ (r.2 = inr tt → runs r.1 = [] ∧ length (watchers r.1) = 1)
  ∧ (∀ c, r.2 = inl (Exit c) →
          watchers r.1 = []
          ∧ ∃ opts, runs r.1 = [opts] ∧ c = code (child_status w opts)).
Proof.
  intros r. subst r.
  destruct (Scripts_cases lib w config g) as [[msg ->]|(script & rest & ->)];
    cbn [snd].
  - repeat split; try done; try congruence; simpl; lia.
  - eapply Ending_effects, Scripts_run_ending.
Qed.

Lemma X16_watch_run_witness :
  let w := world ["log"] ["./log.ts"] ∅ (exited 0) one_change in
  let r := (Scripts deno_lib w watching_config emptyGlobalConfig).2 in
  runs r.1 = [] ∧ length (watchers r.1) = 1.
Proof.
  intros w r.
  exact (proj1 (proj2 (proj2 (proj2
           (X16_child_and_watcher_exclude_each_other deno_lib w
              watching_config emptyGlobalConfig)))) eq_refl).
Defined.

Lemma Scripts_run_cmd_suffix (lib : Lib) (w : World) (script : Script)
    (g : GlobalConfig) (rest : list string) (opts : RunOptions) :
  opts ∈ runs (Scripts_run lib w script g rest).1 →
  ∃ pre, cmd opts = pre ++ rest.
Proof.
  destruct (Scripts_env_cases lib w script g) as [Hrej|[e He]].
  { rewrite (Scripts_run_rejected _ _ _ _ _ Hrej). by intros ?%elem_of_nil. }
  assert (Hcmd : file script = None ∨ file script = Some EmptyString →
                 opts ∈ runs (Scripts_run lib w script g rest).1 →
                 ∃ pre, cmd opts = pre ++ rest).
  { intros Hf. destruct (run script) as [r|] eqn:Hr.
    - destruct (truthy_sol r) eqn:Ht.
      + rewrite (Scripts_run_command lib w script g rest r e) by done.
        cbn [fst]. rewrite !runs_app, runs_banner, runs_debug_line.
        intros ->%list_elem_of_singleton. cbn [cmd]. unfold run_cmd.
        eexists. by rewrite app_assoc.
      + rewrite (Scripts_run_no_target lib w script g rest e) by eauto.
        cbn [fst]. rewrite runs_banner. by intros ?%elem_of_nil.
    - rewrite (Scripts_run_no_target lib w script g rest e) by eauto.
      cbn [fst]. rewrite runs_banner. by intros ?%elem_of_nil. }
  destruct (file script) as [[|c f]|] eqn:Hf; [by auto| |by auto].
  destruct (fs_exists w (String c f)) eqn:Hex.
  - destruct (watchModeEnabled script g) eqn:Hw.
    + rewrite (Scripts_run_file_watch lib w script g rest _ e) by done.
      cbn [fst]. intros H.
      change (opts ∈ runs (watcher_batches w
                (String c f :: default [] (read (paths (watchOptions script g))))
                (watcher_config (watchOptions script g)) ≫= batch_trace)) in H.
      rewrite runs_watch_loop in H. by apply elem_of_nil in H.
    + rewrite (Scripts_run_file_once lib w script g rest _ e) by done.
      cbn [fst]. rewrite runs_app, runs_debug_line.
      intros ->%list_elem_of_singleton. cbn [cmd]. unfold file_cmd.
      eexists. by rewrite !app_assoc.
  - rewrite (Scripts_run_file_missing lib w script g rest _ e) by done.
    cbn [fst]. rewrite runs_banner. by intros ?%elem_of_nil.
Qed.

(** X17.  Whatever child a call of [Scripts] starts, the arguments that
    follow the script name on the command line are the end of its argument
    vector, in order and unchanged. *)
Theorem X17_rest_arguments_come_last
    (lib : Lib) (w : World) (config : gmap string Script) (g : GlobalConfig)
    (opts : RunOptions) :
  opts ∈ runs (Scripts lib w config g).2.1 →
  ∃ pre, cmd opts = pre ++ tail (Deno_args w).
Proof.
  unfold Scripts.
  destruct (Deno_args w) as [|[|c name] rest]; cbn [snd fst tail].
  - by intros ?%elem_of_nil.
  - by intros ?%elem_of_nil.
  - destruct (get_script config (String c name)) as [script|].
    + destruct (defaultCommonArgs w script g) as [s' g']. cbn [snd].
      apply Scripts_run_cmd_suffix.
    + by intros ?%elem_of_nil.
Qed.

Lemma X17_rest_witness :
  let w := world ["log"; "--port"; "80"] ["./log.ts"] ∅ (exited 0) [] in
  ∃ pre, ["deno"; "run"; "--allow-all"; "--config"; "tsconfig.json";
          "--quiet"; "--importmap"; "map.json"; "--unstable"; "./log.ts";
          "-v"; "in.txt"; "--port"; "80"]
         = pre ++ ["--port"; "80"].
Proof.
  intros w.
  apply (X17_rest_arguments_come_last deno_lib w {[ "log" := log_script ]}
           log_global
           {| cmd := ["deno"; "run"; "--allow-all"; "--config";
                      "tsconfig.json"; "--quiet"; "--importmap"; "map.json";
                      "--unstable"; "./log.ts"; "-v"; "in.txt"; "--port";
                      "80"];
              inherit := true;
              run_env := Some {[ "PORT" := "80"; "MODE" := "dev" ]} |}).
  vm_compute. apply list_elem_of_here.
Defined.
